(** * reliontomo: command-line assembly of the Relion tomography protocols

    Shallow embedding of
      - [reliontomo/utils.py]                               ([getProgram]),
      - [reliontomo/protocols/protocol_de_novo_initial_model.py]
      - [reliontomo/protocols/protocol_rec_tomogram.py]
    and the properties of the command strings they build.

    Python values are modelled as follows.
      - [str]            : [string]; a [StringParam] value is [option string]
                           ([None] when the field was never filled);
      - [int]            : [Z] (Python integers are unbounded);
      - [bool]           : [bool];
      - [float]          : a binary64 float, [PrimFloat.float], with its
                           signed zeros, infinities and nan;
      - [cmd += x]       : [let cmd := cmd ++ x in ...];
      - [if c: cmd += x] : [let cmd := if c then cmd ++ x else cmd in ...]. *)

From Stdlib Require Import Floats.
From Stdlib Require Import ZArith QArith Qabs List Bool Lia.
From Stdlib Require Import Strings.Ascii Strings.String Numbers.DecimalString.
From Stdlib Require Import Numbers.DecimalN.
Import ListNotations.

Open Scope string_scope.
Open Scope Z_scope.

(* ================================================================== *)
(** ** Python string primitives *)

Module Py.

(** ['%i' % z] for a Python [int]. *)
Definition fmt_i (z : Z) : string := NilZero.string_of_int (Z.to_int z).

(** ['%s' % v] where [v] is a [str] or [None]. *)
Definition fmt_s (v : option string) : string :=
  match v with
  | Some s => s
  | None => "None"
  end.

(** Truth value of a [str]-or-[None]: [None] and [''] are false. *)
Definition truthy_s (v : option string) : bool :=
  match v with
  | Some (String _ _) => true
  | _ => false
  end.

(** [n] zeros. *)
Fixpoint zeros (n : nat) : string :=
  match n with
  | O => ""
  | S n' => String "0" (zeros n')
  end.

(** ['{:03d}'.format(z)]: sign, then the digits zero-padded so that the
    whole field is at least three characters wide. *)
Definition fmt_03d (z : Z) : string :=
  let sign := if z <? 0 then "-" else "" in
  let digits := NilZero.string_of_uint (N.to_uint (Z.abs_N z)) in
  sign ++ zeros (3 - String.length sign - String.length digits) ++ digits.

(** [range(lo, hi)] *)
Definition range (lo hi : Z) : list Z :=
  List.map (fun k => lo + Z.of_nat k) (List.seq 0 (Z.to_nat (hi - lo))).

(** Nearest integer of a rational, ties to the even neighbour. *)
Definition round_half_even (q : Q) : Z :=
  let n := Qnum q in
  let d := Z.pos (Qden q) in
  let fl := n / d in
  let r2 := 2 * (n mod d) in
  if r2 <? d then fl
  else if d <? r2 then fl + 1
  else if Z.even fl then fl else fl + 1.

(** The decimal expansion of [|q|] with one fractional digit, correctly
    rounded (ties to even). *)
Definition fmt_1f_abs (q : Q) : string :=
  let t := round_half_even (Qabs q * (10 # 1))%Q in
  fmt_i (t / 10) ++ "." ++ fmt_i (t mod 10).

(** The exact value [m * 2^e] of the magnitude of a finite float. *)
Definition SF_magnitude (m : positive) (e : Z) : Q :=
  if 0 <=? e then (Z.pos m * 2 ^ e) # 1
  else Z.pos m # (2 ^ Z.to_pos (- e)).

(** The sign ['%f'] prints. *)
Definition fmt_sign (s : bool) : string := if s then "-" else "".

(** ['%.1f' % x] for a float: [nan], [inf] and [-inf] by name; otherwise
    the sign (also that of [-0.0]) and the magnitude with one fractional
    digit, correctly rounded from the exact binary value. *)
Definition fmt_1f (x : float) : string :=
  match Prim2SF x with
  | S754_nan => "nan"
  | S754_infinity s => fmt_sign s ++ "inf"
  | S754_zero s => fmt_sign s ++ fmt_1f_abs (0 # 1)
  | S754_finite s m e => fmt_sign s ++ fmt_1f_abs (SF_magnitude m e)
  end.

(** Truth value of an [int]: zero is false. *)
Definition truthy_i (z : Z) : bool := negb (z =? 0).

(** [a in b] for strings, as a proposition and as a test. *)
Definition Contains (t s : string) : Prop :=
  exists pre post, s = pre ++ t ++ post.

Fixpoint occursb (t s : string) : bool :=
  prefix t s ||
  match s with
  | EmptyString => false
  | String _ s' => occursb t s'
  end.

(** [s.endswith(t)]. *)
Definition EndsWith (t s : string) : Prop := exists pre, s = pre ++ t.

Fixpoint has_char (c : ascii) (s : string) : bool :=
  match s with
  | EmptyString => false
  | String d s' => Ascii.eqb c d || has_char c s'
  end.

(** Every character of [s] is one of [allowed]. *)
Fixpoint all_in (allowed s : string) : bool :=
  match s with
  | EmptyString => true
  | String c s' => has_char c allowed && all_in allowed s'
  end.

End Py.

(* ================================================================== *)
(** ** Host framework objects (pyworkflow / pwem), seen through the
       methods the plugin calls. *)

(** A protocol of the host framework: [_getExtraPath] joins the
    path components it is given below the protocol's [extra] directory. *)
Record EMProtocol := {
  _getExtraPath : list string -> string
}.

(** One call of [Plugin.runRelionTomo(protocol, program, args, numberOfMpi)];
    [run_numberOfMpi] is [None] when the keyword argument is not passed. *)
Record RunRelionTomo := {
  run_program : string;
  run_args : string;
  run_numberOfMpi : option Z
}.

(** A command line read as words: a literal flag name, an integer
    printed with ['%i'], or a string taken from the user or the host. *)
Inductive Word :=
| WLit (name : string)
| WInt (z : Z)
| WStr (v : string).

Definition text (w : Word) : string :=
  match w with
  | WLit name => name
  | WInt z => Py.fmt_i z
  | WStr v => v
  end.

(** Every word followed by one space. *)
Fixpoint spaced (ws : list Word) : string :=
  match ws with
  | [] => ""
  | w :: ws' => text w ++ " " ++ spaced ws'
  end.

(** [' '.join(...)] of the words. *)
Definition unwords (ws : list Word) : string :=
  String.concat " " (List.map text ws).

(* ================================================================== *)
(** ** Files on disc and exceptions *)

Module PyIO.

Inductive PyExn :=
| AttributeError (name : string)
| OSError (path : string).

(** What a path names: [os.remove] removes a regular file and raises an
    [OSError] on a directory. *)
Inductive Kind := RegularFile | Directory.

Definition FileSystem := list (string * Kind).

Inductive Outcome (A : Type) :=
| Returned (a : A)
| Raised (e : PyExn).

Arguments Returned {A} a.
Arguments Raised {A} e.

(** Code that acts on the files and may raise: the outcome, and the
    files as they are left (also when it raises). *)
Definition IO (A : Type) := FileSystem -> Outcome A * FileSystem.

Definition ret {A : Type} (a : A) : IO A := fun fs => (Returned a, fs).

Definition raise {A : Type} (e : PyExn) : IO A := fun fs => (Raised e, fs).

Definition bind {A B : Type} (c : IO A) (k : A -> IO B) : IO B :=
  fun fs =>
    match c fs with
    | (Returned a, fs') => k a fs'
    | (Raised e, fs') => (Raised e, fs')
    end.

Definition names (fn : string) (entry : string * Kind) : bool :=
  String.eqb (fst entry) fn.

(** [os.path.exists(fn)] *)
Definition exists_ (fn : string) : IO bool :=
  fun fs => (Returned (List.existsb (names fn) fs), fs).

(** [os.remove(fn)] *)
Definition remove (fn : string) : IO unit :=
  fun fs =>
    match List.find (names fn) fs with
    | Some (_, RegularFile) =>
        (Returned tt, List.filter (fun entry => negb (names fn entry)) fs)
    | Some (_, Directory) => (Raised (OSError fn), fs)
    | None => (Raised (OSError fn), fs)
    end.

(** [for x in xs: body(x)] *)
Fixpoint for_each {X : Type} (xs : list X) (body : X -> IO unit) : IO unit :=
  match xs with
  | [] => ret tt
  | x :: xs' => bind (body x) (fun _ => for_each xs' body)
  end.

End PyIO.

(* ================================================================== *)
(** ** reliontomo/utils.py *)

(** [getProgram(program, nMpi)] *)
Definition getProgram (program : string) (nMpi : Z) : string :=
  let program := if 1 <? nMpi then program ++ "_mpi" else program in
  program.

(* ================================================================== *)
(** ** reliontomo/protocols/protocol_de_novo_initial_model.py *)

Module DeNovo.

(** The form parameters declared by [_defineParams], by declared type.
    [form.addParallelSection(threads=1, mpi=1)] adds [numberOfThreads]
    and [numberOfMpi]. *)
Inductive BooleanParam :=
| doCTF | ignoreCTFUntilFirstPeak | ctfPhaseFlipped | padCtf
| ctfUncorrectedRef | gradBasedOpt | noInitBlobs | flattenSolvent
| noParallelDiscIO | allParticlesRam | combineItersDisc | doGpu
| keepOnlyLastIterFiles.

(** [angularSamplingDeg] is an [EnumParam]: its value is the index of
    the chosen entry. [zeroMask] is declared as an [IntParam]. *)
Inductive IntParam :=
| maxNumberOfIterations | numberOfClasses | maskDiameter | zeroMask
| gradWriteIter | angularSamplingDeg | offsetSearchRangePix
| offsetSearchStepPix | pooledSubtomos | oversampling
| numberOfThreads | numberOfMpi.

(** [scratchDir] is a [PathParam]; the others are [StringParam]s. *)
Inductive StringParam :=
| symmetry | scratchDir | gpusToUse | extraParams.

Definition BooleanParam_eqb (p q : BooleanParam) : bool :=
  match p, q with
  | doCTF, doCTF | ignoreCTFUntilFirstPeak, ignoreCTFUntilFirstPeak
  | ctfPhaseFlipped, ctfPhaseFlipped | padCtf, padCtf
  | ctfUncorrectedRef, ctfUncorrectedRef | gradBasedOpt, gradBasedOpt
  | noInitBlobs, noInitBlobs | flattenSolvent, flattenSolvent
  | noParallelDiscIO, noParallelDiscIO | allParticlesRam, allParticlesRam
  | combineItersDisc, combineItersDisc | doGpu, doGpu
  | keepOnlyLastIterFiles, keepOnlyLastIterFiles => true
  | _, _ => false
  end.

(** A protocol instance whose form has been filled: [self.<name>.get()]
    is [getB self <name>], [getI self <name>] or [getS self <name>]. *)
Record ProtRelionDeNovoInitialModel := {
  host : EMProtocol;
  inputPseudoSubtomosProt : EMProtocol;
  getB : BooleanParam -> bool;
  getI : IntParam -> Z;
  getS : StringParam -> option string
}.

(** The instance with one boolean parameter changed. *)
Definition setB (p : BooleanParam) (v : bool)
    (self : ProtRelionDeNovoInitialModel) : ProtRelionDeNovoInitialModel :=
  {| host := host self;
     inputPseudoSubtomosProt := inputPseudoSubtomosProt self;
     getB := fun q => if BooleanParam_eqb q p then v else getB self q;
     getI := getI self;
     getS := getS self |}.

(** Declared defaults ([default=...] in [_defineParams]). [maskDiameter]
    declares none; [zeroMask] declares [False], which an integer
    parameter holds as [0]. *)
Definition default_B (p : BooleanParam) : bool :=
  match p with
  | doCTF => true
  | _ => false
  end.

Definition default_I (p : IntParam) : option Z :=
  match p with
  | maxNumberOfIterations => Some 25
  | numberOfClasses => Some 1
  | maskDiameter => None
  | zeroMask => Some 0
  | gradWriteIter => Some 10
  | angularSamplingDeg => Some 2
  | offsetSearchRangePix => Some 6
  | offsetSearchStepPix => Some 2
  | pooledSubtomos => Some 1
  | oversampling => Some 1
  | numberOfThreads => Some 1
  | numberOfMpi => Some 1
  end.

Definition default_S (p : StringParam) : option string :=
  match p with
  | symmetry => Some "C1"
  | gpusToUse => Some "0"
  | scratchDir | extraParams => None
  end.

Section WithConstants.

(** [reliontomo.constants.OUT_SUBTOMOS_STAR], a file name. *)
Variable OUT_SUBTOMOS_STAR : string.

(** [_genCommand(self)] *)
Definition _genCommand (self : ProtRelionDeNovoInitialModel) : string :=
  let cmd := "" in
  let cmd := cmd ++ ("--i " ++
               _getExtraPath (inputPseudoSubtomosProt self) [OUT_SUBTOMOS_STAR]
               ++ " ") in
  let cmd := cmd ++ ("--o " ++ _getExtraPath (host self) [] ++ " ") in
  let cmd := cmd ++ "--denovo_3dref " in
  let cmd := cmd ++ ("--j " ++ Py.fmt_i (getI self numberOfThreads) ++ " ") in
  (* CTF args *)
  let cmd := if getB self doCTF then cmd ++ "--ctf " else cmd in
  let cmd := if getB self ignoreCTFUntilFirstPeak
             then cmd ++ "--ctf_intact_first_peak " else cmd in
  let cmd := if getB self ctfPhaseFlipped
             then cmd ++ "--ctf_phase_flipped " else cmd in
  let cmd := if getB self padCtf then cmd ++ "--pad_ctf " else cmd in
  let cmd := if getB self ctfUncorrectedRef
             then cmd ++ "--ctf_uncorrected_ref " else cmd in
  (* Optimisation args *)
  let cmd := cmd ++ ("--iter " ++ Py.fmt_i (getI self maxNumberOfIterations) ++ " ") in
  let cmd := cmd ++ ("--K " ++ Py.fmt_i (getI self numberOfClasses) ++ " ") in
  let cmd := cmd ++ ("--particle_diameter " ++ Py.fmt_i (getI self maskDiameter) ++ " ") in
  let cmd := if Py.truthy_i (getI self zeroMask)
             then cmd ++ "--zero_mask " else cmd in
  let cmd := if getB self flattenSolvent
             then cmd ++ "--flatten_solvent " else cmd in
  let cmd := if getB self gradBasedOpt then cmd ++ "--grad " else cmd in
  let cmd := if Py.truthy_i (getI self gradWriteIter)
             then cmd ++ ("--grad_write_iter " ++
                          Py.fmt_i (getI self gradWriteIter) ++ " ")
             else cmd in
  let cmd := if getB self noInitBlobs
             then cmd ++ "--no_init_blobs " else cmd in
  let cmd := cmd ++ ("--sym " ++ Py.fmt_s (getS self symmetry) ++ " ") in
  let cmd := cmd ++ ("--healpix_order " ++ Py.fmt_i (getI self angularSamplingDeg) ++ " ") in
  let cmd := cmd ++ ("--offset_step " ++ Py.fmt_i (getI self offsetSearchStepPix) ++ " ") in
  let cmd := cmd ++ ("--offset_range " ++ Py.fmt_i (getI self offsetSearchRangePix) ++ " ") in
  (* Compute args *)
  let cmd := if getB self noParallelDiscIO
             then cmd ++ "--no_parallel_disc_io " else cmd in
  let cmd := cmd ++ ("--pool " ++ Py.fmt_i (getI self pooledSubtomos) ++ " ") in
  let cmd := if getB self allParticlesRam
             then cmd ++ "--preread_images " else cmd in
  let cmd := if negb (getB self combineItersDisc)
             then cmd ++ "--dont_combine_weights_via_disc " else cmd in
  let cmd := if Py.truthy_s (getS self scratchDir)
             then cmd ++ ("--scratch_dir " ++ Py.fmt_s (getS self scratchDir) ++ " ")
             else cmd in
  let cmd := if getB self doGpu
             then cmd ++ ("--gpu " ++ Py.fmt_s (getS self gpusToUse) ++ " ")
             else cmd in
  (* Additional args *)
  let cmd := cmd ++ ("oversampling " ++ Py.fmt_i (getI self oversampling)) in
  let cmd := if Py.truthy_s (getS self extraParams)
             then cmd ++ (" " ++ Py.fmt_s (getS self extraParams))
             else cmd in
  cmd.

(** The words [_genCommand] writes, in order. [flag], [optI] and
    [optS] are the three shapes of a guarded [cmd += ...]. *)
Definition flag (c : bool) (name : string) : list Word :=
  if c then [WLit name] else [].

Definition optI (c : bool) (name : string) (z : Z) : list Word :=
  if c then [WLit name; WInt z] else [].

Definition optS (c : bool) (name : string) (v : string) : list Word :=
  if c then [WLit name; WStr v] else [].

Definition generated (self : ProtRelionDeNovoInitialModel) : list Word :=
  ([WLit "--i";
    WStr (_getExtraPath (inputPseudoSubtomosProt self) [OUT_SUBTOMOS_STAR]);
    WLit "--o"; WStr (_getExtraPath (host self) []);
    WLit "--denovo_3dref";
    WLit "--j"; WInt (getI self numberOfThreads)]
   ++ flag (getB self doCTF) "--ctf"
   ++ flag (getB self ignoreCTFUntilFirstPeak) "--ctf_intact_first_peak"
   ++ flag (getB self ctfPhaseFlipped) "--ctf_phase_flipped"
   ++ flag (getB self padCtf) "--pad_ctf"
   ++ flag (getB self ctfUncorrectedRef) "--ctf_uncorrected_ref"
   ++ [WLit "--iter"; WInt (getI self maxNumberOfIterations);
       WLit "--K"; WInt (getI self numberOfClasses);
       WLit "--particle_diameter"; WInt (getI self maskDiameter)]
   ++ flag (Py.truthy_i (getI self zeroMask)) "--zero_mask"
   ++ flag (getB self flattenSolvent) "--flatten_solvent"
   ++ flag (getB self gradBasedOpt) "--grad"
   ++ optI (Py.truthy_i (getI self gradWriteIter)) "--grad_write_iter"
           (getI self gradWriteIter)
   ++ flag (getB self noInitBlobs) "--no_init_blobs"
   ++ [WLit "--sym"; WStr (Py.fmt_s (getS self symmetry));
       WLit "--healpix_order"; WInt (getI self angularSamplingDeg);
       WLit "--offset_step"; WInt (getI self offsetSearchStepPix);
       WLit "--offset_range"; WInt (getI self offsetSearchRangePix)]
   ++ flag (getB self noParallelDiscIO) "--no_parallel_disc_io"
   ++ [WLit "--pool"; WInt (getI self pooledSubtomos)]
   ++ flag (getB self allParticlesRam) "--preread_images"
   ++ flag (negb (getB self combineItersDisc)) "--dont_combine_weights_via_disc"
   ++ optS (Py.truthy_s (getS self scratchDir)) "--scratch_dir"
           (Py.fmt_s (getS self scratchDir))
   ++ optS (getB self doGpu) "--gpu" (Py.fmt_s (getS self gpusToUse)))%list.

(** The user's extra arguments, one verbatim string when given. *)
Definition extras (self : ProtRelionDeNovoInitialModel) : list Word :=
  if Py.truthy_s (getS self extraParams)
  then [WStr (Py.fmt_s (getS self extraParams))] else [].

Definition words (self : ProtRelionDeNovoInitialModel) : list Word :=
  (generated self
     ++ [WLit "oversampling"; WInt (getI self oversampling)]
     ++ extras self)%list.

(** What follows the generated options: the oversampling pair and the
    extra arguments. *)
Definition tail (self : ProtRelionDeNovoInitialModel) : string :=
  "oversampling " ++ Py.fmt_i (getI self oversampling)
    ++ (if Py.truthy_s (getS self extraParams)
        then " " ++ Py.fmt_s (getS self extraParams) else "").

(** The strings copied into the command as they are. *)
Definition user_strings (self : ProtRelionDeNovoInitialModel) : list string :=
  [_getExtraPath (inputPseudoSubtomosProt self) [OUT_SUBTOMOS_STAR];
   _getExtraPath (host self) [];
   Py.fmt_s (getS self symmetry);
   Py.fmt_s (getS self scratchDir);
   Py.fmt_s (getS self gpusToUse);
   Py.fmt_s (getS self extraParams)].

(** The flag names [_genCommand] can write, each with the condition
    under which it is written. *)
Definition guards (self : ProtRelionDeNovoInitialModel) : list (string * bool) :=
  [("--i", true); ("--o", true); ("--denovo_3dref", true); ("--j", true);
   ("--ctf", getB self doCTF);
   ("--ctf_intact_first_peak", getB self ignoreCTFUntilFirstPeak);
   ("--ctf_phase_flipped", getB self ctfPhaseFlipped);
   ("--pad_ctf", getB self padCtf);
   ("--ctf_uncorrected_ref", getB self ctfUncorrectedRef);
   ("--iter", true); ("--K", true); ("--particle_diameter", true);
   ("--zero_mask", Py.truthy_i (getI self zeroMask));
   ("--flatten_solvent", getB self flattenSolvent);
   ("--grad", getB self gradBasedOpt);
   ("--grad_write_iter", Py.truthy_i (getI self gradWriteIter));
   ("--no_init_blobs", getB self noInitBlobs);
   ("--sym", true); ("--healpix_order", true);
   ("--offset_step", true); ("--offset_range", true);
   ("--no_parallel_disc_io", getB self noParallelDiscIO);
   ("--pool", true);
   ("--preread_images", getB self allParticlesRam);
   ("--dont_combine_weights_via_disc", negb (getB self combineItersDisc));
   ("--scratch_dir", Py.truthy_s (getS self scratchDir));
   ("--gpu", getB self doGpu);
   ("oversampling", true)].

(** The generated words by place: one group for each run of unguarded
    [cmd += ...] lines and one for each guarded line of the source, in
    source order; a guarded group is empty when its guard is false. *)
Definition groups (self : ProtRelionDeNovoInitialModel) : list (list Word) :=
  [ [WLit "--i";
     WStr (_getExtraPath (inputPseudoSubtomosProt self) [OUT_SUBTOMOS_STAR]);
     WLit "--o"; WStr (_getExtraPath (host self) []);
     WLit "--denovo_3dref";
     WLit "--j"; WInt (getI self numberOfThreads)];
    flag (getB self doCTF) "--ctf";
    flag (getB self ignoreCTFUntilFirstPeak) "--ctf_intact_first_peak";
    flag (getB self ctfPhaseFlipped) "--ctf_phase_flipped";
    flag (getB self padCtf) "--pad_ctf";
    flag (getB self ctfUncorrectedRef) "--ctf_uncorrected_ref";
    [WLit "--iter"; WInt (getI self maxNumberOfIterations);
     WLit "--K"; WInt (getI self numberOfClasses);
     WLit "--particle_diameter"; WInt (getI self maskDiameter)];
    flag (Py.truthy_i (getI self zeroMask)) "--zero_mask";
    flag (getB self flattenSolvent) "--flatten_solvent";
    flag (getB self gradBasedOpt) "--grad";
    optI (Py.truthy_i (getI self gradWriteIter)) "--grad_write_iter"
         (getI self gradWriteIter);
    flag (getB self noInitBlobs) "--no_init_blobs";
    [WLit "--sym"; WStr (Py.fmt_s (getS self symmetry));
     WLit "--healpix_order"; WInt (getI self angularSamplingDeg);
     WLit "--offset_step"; WInt (getI self offsetSearchStepPix);
     WLit "--offset_range"; WInt (getI self offsetSearchRangePix)];
    flag (getB self noParallelDiscIO) "--no_parallel_disc_io";
    [WLit "--pool"; WInt (getI self pooledSubtomos)];
    flag (getB self allParticlesRam) "--preread_images";
    flag (negb (getB self combineItersDisc)) "--dont_combine_weights_via_disc";
    optS (Py.truthy_s (getS self scratchDir)) "--scratch_dir"
         (Py.fmt_s (getS self scratchDir));
    optS (getB self doGpu) "--gpu" (Py.fmt_s (getS self gpusToUse)) ].

(** The text of the command before the group of index [k], and the text
    after it. *)
Definition text_before (k : nat) (self : ProtRelionDeNovoInitialModel) : string :=
  spaced (List.concat (List.firstn k (groups self))).

Definition text_after (k : nat) (self : ProtRelionDeNovoInitialModel) : string :=
  spaced (List.concat (List.skipn (S k) (groups self))) ++ tail self.

(** [_generateDeNovo3DModel(self)]: the call it makes to
    [Plugin.runRelionTomo]. *)
Definition _generateDeNovo3DModel (self : ProtRelionDeNovoInitialModel)
    : RunRelionTomo :=
  let nMpi := if getB self gradBasedOpt then 1 else getI self numberOfMpi in
  {| run_program := getProgram "relion_refine" nMpi;
     run_args := _genCommand self;
     run_numberOfMpi := Some nMpi |}.

(** The functions of the class that can be inserted as steps. *)
Inductive StepFunction :=
| Step_generateDeNovo3DModel
| Step_cleanUndesiredFiles.

(** [_insertAllSteps(self)]: the steps registered through
    [_insertFunctionStep], in order. *)
Definition _insertAllSteps (self : ProtRelionDeNovoInitialModel)
    : list StepFunction :=
  [Step_generateDeNovo3DModel].

(** What a run of the protocol acts on: the files on disc, the calls
    made to the external program so far, the step functions that have
    been invoked, and the exceptions their steps raised. *)
Record World := {
  files : PyIO.FileSystem;
  runs : list RunRelionTomo;
  invoked : list StepFunction;
  raised : list PyIO.PyExn
}.

(** [os.path.abspath]; the effect of the external program on the files. *)
Variable abspath : string -> string.
Variable relion : RunRelionTomo -> PyIO.FileSystem -> PyIO.FileSystem.

(** [self._lastIter()] and [self.nClasses]: the class defines neither
    (nor does [EMProtocol]), so the attribute lookup raises. *)
Definition _lastIter (self : ProtRelionDeNovoInitialModel) : PyIO.IO Z :=
  PyIO.raise (PyIO.AttributeError "_lastIter").

Definition nClasses (self : ProtRelionDeNovoInitialModel) : PyIO.IO Z :=
  PyIO.raise (PyIO.AttributeError "nClasses").

(** [if exists(fn): remove(fn)] *)
Definition remove_if_exists (fn : string) : PyIO.IO unit :=
  PyIO.bind (PyIO.exists_ fn) (fun found =>
  if found then PyIO.remove fn else PyIO.ret tt).

(** [_cleanUndesiredFiles(self)] *)
Definition _cleanUndesiredFiles (self : ProtRelionDeNovoInitialModel)
    : PyIO.IO unit :=
  let itPref := "relion_it" in
  let clPref := "class" in
  let starExt := ".star" in
  let mrcExt := ".mrc" in
  let calcFiles := ["data"; "model"; "optimiser"; "sampling"] in
  PyIO.bind (_lastIter self) (fun lastIter =>
  PyIO.for_each (Py.range 0 lastIter) (fun i =>
    PyIO.bind
      (PyIO.for_each calcFiles (fun calcFile =>
         let fn := abspath (_getExtraPath (host self)
                     [itPref ++ Py.fmt_03d i ++ "_" ++ calcFile ++ starExt]) in
         remove_if_exists fn))
      (fun _ =>
    PyIO.bind (nClasses self) (fun n =>
    PyIO.for_each (Py.range 1 (n + 1)) (fun itr =>
      let fn := abspath (_getExtraPath (host self)
                  [itPref ++ Py.fmt_03d i ++ "_" ++ clPref
                     ++ Py.fmt_03d itr ++ mrcExt]) in
      remove_if_exists fn))))).

(** Running one step function, then all inserted steps in order. *)
Definition runStep (self : ProtRelionDeNovoInitialModel)
    (w : World) (f : StepFunction) : World :=
  match f with
  | Step_generateDeNovo3DModel =>
      let call := _generateDeNovo3DModel self in
      {| files := relion call (files w);
         runs := (runs w ++ [call])%list;
         invoked := (invoked w ++ [f])%list;
         raised := raised w |}
  | Step_cleanUndesiredFiles =>
      let (outcome, fs) := _cleanUndesiredFiles self (files w) in
      {| files := fs;
         runs := runs w;
         invoked := (invoked w ++ [f])%list;
         raised := match outcome with
                   | PyIO.Raised e => (raised w ++ [e])%list
                   | PyIO.Returned _ => raised w
                   end |}
  end.

Definition run (self : ProtRelionDeNovoInitialModel) (w : World) : World :=
  List.fold_left (runStep self) (_insertAllSteps self) w.

End WithConstants.

(** A host protocol whose extra directory is [dir]. *)
Definition protocol_at (dir : string) : EMProtocol :=
  {| _getExtraPath := fun paths => String.concat "/" (dir :: paths) |}.

(** The form as [_defineParams] leaves it, with mask diameter [d]
    (the one parameter that declares no default). *)
Definition default_form (d : Z) : ProtRelionDeNovoInitialModel :=
  {| host := protocol_at "Runs/000123_ProtRelionDeNovoInitialModel/extra";
     inputPseudoSubtomosProt :=
       protocol_at "Runs/000101_ProtRelionMakePseudoSubtomograms/extra";
     getB := default_B;
     getI := fun p => match default_I p with Some z => z | None => d end;
     getS := default_S |}.

(** The same form with every boolean parameter set to false. *)
Definition all_false_form (d : Z) : ProtRelionDeNovoInitialModel :=
  {| host := host (default_form d);
     inputPseudoSubtomosProt := inputPseudoSubtomosProt (default_form d);
     getB := fun _ => false;
     getI := getI (default_form d);
     getS := getS (default_form d) |}.

(** The instance with one string parameter changed. *)
Definition setS (p : StringParam) (v : option string)
    (self : ProtRelionDeNovoInitialModel) : ProtRelionDeNovoInitialModel :=
  {| host := host self;
     inputPseudoSubtomosProt := inputPseudoSubtomosProt self;
     getB := getB self;
     getI := getI self;
     getS := fun q =>
               match p, q with
               | symmetry, symmetry | scratchDir, scratchDir
               | gpusToUse, gpusToUse | extraParams, extraParams => v
               | _, _ => getS self q
               end |}.

(** The flag token of the inverted option. *)
Definition dont_combine : string := "--dont_combine_weights_via_disc".

(** As specified: the flag is in the command exactly when
    [combineItersDisc] is false. *)
Definition dont_combine_iff_not_combining (star_file : string)
    (self : ProtRelionDeNovoInitialModel) : Prop :=
  Py.Contains dont_combine (_genCommand star_file self)
  <-> getB self combineItersDisc = false.

(** The instance with one integer parameter changed. *)
Definition setI (p : IntParam) (v : Z)
    (self : ProtRelionDeNovoInitialModel) : ProtRelionDeNovoInitialModel :=
  {| host := host self;
     inputPseudoSubtomosProt := inputPseudoSubtomosProt self;
     getB := getB self;
     getI := fun q =>
               match p, q with
               | maxNumberOfIterations, maxNumberOfIterations
               | numberOfClasses, numberOfClasses
               | maskDiameter, maskDiameter | zeroMask, zeroMask
               | gradWriteIter, gradWriteIter
               | angularSamplingDeg, angularSamplingDeg
               | offsetSearchRangePix, offsetSearchRangePix
               | offsetSearchStepPix, offsetSearchStepPix
               | pooledSubtomos, pooledSubtomos | oversampling, oversampling
               | numberOfThreads, numberOfThreads
               | numberOfMpi, numberOfMpi => v
               | _, _ => getI self q
               end;
     getS := getS self |}.

(** Gradient based optimisation asked for together with four MPI
    processes. *)
Definition grad_with_mpi : ProtRelionDeNovoInitialModel :=
  setI numberOfMpi 4 (setB gradBasedOpt true (default_form 200)).

(** GPU use is off and the user passes a GPU list as an extra argument. *)
Definition gpu_off_extra_gpu : ProtRelionDeNovoInitialModel :=
  setS extraParams (Some "--gpu 1") (default_form 200).

(** [gradWriteIter] is zero and the user passes the option as an extra
    argument. *)
Definition write_iter_zero_extra : ProtRelionDeNovoInitialModel :=
  setS extraParams (Some "--grad_write_iter 5")
    (setI gradWriteIter 0 (default_form 200)).

(** Combining through disc is on and the user passes the flag as an
    extra argument. *)
Definition combining_with_extra_flag : ProtRelionDeNovoInitialModel :=
  setS extraParams (Some "--dont_combine_weights_via_disc")
    (setB combineItersDisc true (default_form 200)).

(** What setting a boolean parameter writes into the command: its flag
    (for [doGpu], the flag and the device list), followed by a space.
    [combineItersDisc] and [keepOnlyLastIterFiles] write nothing. *)
Definition written_when_set (p : BooleanParam)
    (self : ProtRelionDeNovoInitialModel) : string :=
  match p with
  | doCTF => "--ctf "
  | ignoreCTFUntilFirstPeak => "--ctf_intact_first_peak "
  | ctfPhaseFlipped => "--ctf_phase_flipped "
  | padCtf => "--pad_ctf "
  | ctfUncorrectedRef => "--ctf_uncorrected_ref "
  | gradBasedOpt => "--grad "
  | noInitBlobs => "--no_init_blobs "
  | flattenSolvent => "--flatten_solvent "
  | noParallelDiscIO => "--no_parallel_disc_io "
  | allParticlesRam => "--preread_images "
  | doGpu => "--gpu " ++ Py.fmt_s (getS self gpusToUse) ++ " "
  | combineItersDisc | keepOnlyLastIterFiles => ""
  end.

(** What setting a boolean parameter takes out of the command: only
    [combineItersDisc], mapped inversely, takes its flag out. *)
Definition taken_when_set (p : BooleanParam) : string :=
  match p with
  | combineItersDisc => "--dont_combine_weights_via_disc "
  | _ => ""
  end.

(** The index in [groups] of the group a boolean parameter guards;
    [keepOnlyLastIterFiles] guards none. *)
Definition place (p : BooleanParam) : option nat :=
  match p with
  | doCTF => Some 1%nat
  | ignoreCTFUntilFirstPeak => Some 2%nat
  | ctfPhaseFlipped => Some 3%nat
  | padCtf => Some 4%nat
  | ctfUncorrectedRef => Some 5%nat
  | flattenSolvent => Some 8%nat
  | gradBasedOpt => Some 9%nat
  | noInitBlobs => Some 11%nat
  | noParallelDiscIO => Some 13%nat
  | allParticlesRam => Some 15%nat
  | combineItersDisc => Some 16%nat
  | doGpu => Some 18%nat
  | keepOnlyLastIterFiles => None
  end.

(** As specified: setting the boolean parameter [p] inserts a token
    into the command and changes nothing else. *)
Definition toggle_inserts_token (star_file : string)
    (self : ProtRelionDeNovoInitialModel) (p : BooleanParam) : Prop :=
  exists tok pre post,
    tok <> "" /\ _genCommand star_file self = pre ++ post
    /\ _genCommand star_file (setB p true self) = pre ++ tok ++ post.

(** Every boolean parameter false, every parameter that declares a
    default at that default. *)
Definition all_false_at_defaults (self : ProtRelionDeNovoInitialModel) : Prop :=
  (forall p, getB self p = false)
  /\ (forall p d, default_I p = Some d -> getI self p = d)
  /\ (forall p, getS self p = default_S p).

(** The words written whatever the toggles are: input and output paths,
    the operation flag, and the options that are always written. *)
Definition mandatory_words (star_file : string)
    (self : ProtRelionDeNovoInitialModel) : list Word :=
  [WLit "--i"; WStr (_getExtraPath (inputPseudoSubtomosProt self) [star_file]);
   WLit "--o"; WStr (_getExtraPath (host self) []);
   WLit "--denovo_3dref";
   WLit "--j"; WInt (getI self numberOfThreads);
   WLit "--iter"; WInt (getI self maxNumberOfIterations);
   WLit "--K"; WInt (getI self numberOfClasses);
   WLit "--particle_diameter"; WInt (getI self maskDiameter);
   WLit "--sym"; WStr (Py.fmt_s (getS self symmetry));
   WLit "--healpix_order"; WInt (getI self angularSamplingDeg);
   WLit "--offset_step"; WInt (getI self offsetSearchStepPix);
   WLit "--offset_range"; WInt (getI self offsetSearchRangePix);
   WLit "--pool"; WInt (getI self pooledSubtomos);
   WLit "oversampling"; WInt (getI self oversampling)].

(** As specified: the command is made of the mandatory words only. *)
Definition only_mandatory_words (star_file : string)
    (self : ProtRelionDeNovoInitialModel) : Prop :=
  _genCommand star_file self = unwords (mandatory_words star_file self).

(** As specified: the sub-option of gradient based optimisation is in
    the command only when that toggle is on. *)
Definition grad_write_iter_only_with_grad (star_file : string)
    (self : ProtRelionDeNovoInitialModel) : Prop :=
  Py.Contains "--grad_write_iter" (_genCommand star_file self) ->
  getB self gradBasedOpt = true.

End DeNovo.

(* ================================================================== *)
(** ** reliontomo/protocols/protocol_rec_tomogram.py *)

Module RecTomo.

(** The upstream particle set, through the accessors the protocol calls:
    [getTomograms()] (as the text ['%s'] prints) and
    [getTsSamplingRate()]. *)
Record RelionParticles := {
  getTomograms : string;
  getTsSamplingRate : float
}.

(** [tomo.objects.Tomogram]: the attributes the protocol sets, unset
    after [Tomogram()]. *)
Record Tomogram := {
  location : option string;
  samplingRate : option float;
  originSet : bool;
  tsId : option string
}.

Definition Tomogram_new : Tomogram :=
  {| location := None; samplingRate := None; originSet := false; tsId := None |}.

Definition setLocation (fn : string) (t : Tomogram) : Tomogram :=
  {| location := Some fn; samplingRate := samplingRate t;
     originSet := originSet t; tsId := tsId t |}.

Definition setSamplingRate (sr : float) (t : Tomogram) : Tomogram :=
  {| location := location t; samplingRate := Some sr;
     originSet := originSet t; tsId := tsId t |}.

Definition setOrigin (t : Tomogram) : Tomogram :=
  {| location := location t; samplingRate := samplingRate t;
     originSet := true; tsId := tsId t |}.

Definition setTsId (i : string) (t : Tomogram) : Tomogram :=
  {| location := location t; samplingRate := samplingRate t;
     originSet := originSet t; tsId := Some i |}.

(** A protocol instance whose form has been filled. *)
Record ProtRelionTomoReconstruct := {
  host : EMProtocol;
  inReParticles : RelionParticles;
  tomoId : string;
  binFactor : float;
  width : Z;
  height : Z;
  thickness : Z;
  numberOfThreads : Z
}.

(** What [_createOutputStep] leaves behind: the volumes whose header was
    fixed, the outputs defined by name, the source relations. *)
Record Outputs := {
  fixedVolumes : list string;
  definedOutputs : list (string * Tomogram);
  sourceRelations : list (RelionParticles * Tomogram)
}.

(** [_getOutTomoFileName(self)] *)
Definition _getOutTomoFileName (self : ProtRelionTomoReconstruct) : string :=
  _getExtraPath (host self) [tomoId self ++ ".mrc"].

(** [_genTomoRecCommand(self)] *)
Definition _genTomoRecCommand (self : ProtRelionTomoReconstruct) : string :=
  let cmd := "--t " ++ getTomograms (inReParticles self) ++ " " in
  let cmd := cmd ++ ("--tn " ++ tomoId self ++ " ") in
  let cmd := cmd ++ ("--o " ++ _getOutTomoFileName self ++ " ") in
  let cmd := cmd ++ ("--bin " ++ Py.fmt_1f (binFactor self) ++ " ") in
  let cmd := cmd ++ ("--w " ++ Py.fmt_i (width self) ++ " ") in
  let cmd := cmd ++ ("--h " ++ Py.fmt_i (height self) ++ " ") in
  let cmd := cmd ++ ("--d " ++ Py.fmt_i (thickness self) ++ " ") in
  let cmd := cmd ++ ("--j " ++ Py.fmt_i (numberOfThreads self) ++ " ") in
  cmd.

(** [_reconstructStep(self)]: the call it makes to [Plugin.runRelionTomo]. *)
Definition _reconstructStep (self : ProtRelionTomoReconstruct) : RunRelionTomo :=
  {| run_program := "relion_tomo_reconstruct_tomogram";
     run_args := _genTomoRecCommand self;
     run_numberOfMpi := None |}.

(** [_createOutputStep(self)]; [*] on two floats is the binary64
    product. *)
Definition _createOutputStep (self : ProtRelionTomoReconstruct)
    (o : Outputs) : Outputs :=
  let tomo := Tomogram_new in
  let outFileName := _getOutTomoFileName self in
  let fixed := (fixedVolumes o ++ [outFileName])%list in
  let tomo := setLocation outFileName tomo in
  let tomo := setSamplingRate
                (PrimFloat.mul (getTsSamplingRate (inReParticles self))
                               (binFactor self)) tomo in
  let tomo := setOrigin tomo in
  let tomo := setTsId (tomoId self) tomo in
  {| fixedVolumes := fixed;
     definedOutputs := (definedOutputs o ++ [("tomogram", tomo)])%list;
     sourceRelations := (sourceRelations o ++ [(inReParticles self, tomo)])%list |}.

(** A filled form: tomogram [TS_01] with binning factor [b], from
    particles of sampling rate 1.25. *)
Definition reconstruct_form (b : float) : ProtRelionTomoReconstruct :=
  {| host := {| _getExtraPath := fun paths =>
                  String.concat "/"
                    ("Runs/000456_ProtRelionTomoReconstruct/extra" :: paths) |};
     inReParticles := {| getTomograms := "Runs/000400/extra/tomograms.star";
                         getTsSamplingRate := 1.25%float |};
     tomoId := "TS_01";
     binFactor := b;
     width := -1;
     height := -1;
     thickness := -1;
     numberOfThreads := 4 |}.



End RecTomo.

(* ================================================================== *)
(** ** More Python primitives: string methods and [os.path] (POSIX) *)

Module PyPath.

(** [s.endswith(t)] *)
Fixpoint endswith (s t : string) : bool :=
  String.eqb s t ||
  match s with
  | EmptyString => false
  | String _ s' => endswith s' t
  end.

(** [s.startswith(t)] *)
Definition startswith (s t : string) : bool := prefix t s.

(** [s.split(sep)] for a separator of one character: the pieces between
    the separators, one more than there are separators. *)
Fixpoint split (sep : ascii) (s : string) : list string :=
  match s with
  | EmptyString => [""]
  | String c s' =>
      if Ascii.eqb c sep then "" :: split sep s'
      else match split sep s' with
           | p :: ps => String c p :: ps
           | [] => [String c ""]
           end
  end.

(** [l[-k]] for [k >= 1]: [None] stands for [IndexError]. *)
Definition from_end {A : Type} (k : nat) (l : list A) : option A :=
  List.nth_error (List.rev l) (k - 1).

(** [int(s)] for a string of decimal digits, [None] otherwise. *)
Definition int_of_digits (s : string) : option N :=
  match NilEmpty.uint_of_string s with
  | Some d => Some (N.of_uint d)
  | None => None
  end.

(** [os.path.isabs(s)] *)
Definition isabs (s : string) : bool := startswith s "/".

(** [os.path.join(a, b)] *)
Definition join (a b : string) : string :=
  let path := a in
  if startswith b "/" then b
  else if (String.eqb path "" || endswith path "/")%bool then path ++ b
  else path ++ "/" ++ b.

End PyPath.

(* ================================================================== *)
(** ** reliontomo/utils.py, continued *)

Module Utils.

(** [manageDims(fileName, z, n)] *)
Definition manageDims (fileName : string) (z n : Z) : Z :=
  if (PyPath.endswith fileName ".mrc" || PyPath.endswith fileName ".map")%bool
  then if ((z =? 1) && negb (n =? 1))%bool then n else z
  else z.

(** [_getAbsPath(starFilePath, tomoFile)] *)
Definition _getAbsPath (starFilePath tomoFile : string) : string :=
  if PyPath.isabs tomoFile then tomoFile
  else PyPath.join starFilePath tomoFile.

(** [_gen2LevelBaseName(fullFileName)]; [None] stands for an
    [IndexError] raised by [parts[-2]] or [parts[-1]]. *)
Definition _gen2LevelBaseName (fullFileName : string) : option string :=
  let parts := PyPath.split "/" fullFileName in
  if (List.length parts =? 1)%nat then Some fullFileName
  else match PyPath.from_end 2 parts, PyPath.from_end 1 parts with
       | Some p2, Some p1 => Some (p2 ++ "_" ++ p1)
       | _, _ => None
       end.

End Utils.

(* ================================================================== *)
(** ** Vocabulary for the properties of the de novo protocol *)

Module DeNovoTables.
Import DeNovo.

(** The flag a boolean parameter writes when it is true; [None] for the
    parameters that write no flag of their own when true. *)
Definition flag_name (p : BooleanParam) : option string :=
  match p with
  | doCTF => Some "--ctf"
  | ignoreCTFUntilFirstPeak => Some "--ctf_intact_first_peak"
  | ctfPhaseFlipped => Some "--ctf_phase_flipped"
  | padCtf => Some "--pad_ctf"
  | ctfUncorrectedRef => Some "--ctf_uncorrected_ref"
  | gradBasedOpt => Some "--grad"
  | noInitBlobs => Some "--no_init_blobs"
  | flattenSolvent => Some "--flatten_solvent"
  | noParallelDiscIO => Some "--no_parallel_disc_io"
  | allParticlesRam => Some "--preread_images"
  | doGpu => Some "--gpu"
  | combineItersDisc | keepOnlyLastIterFiles => None
  end.

(** [l1] is [l2] with some elements left out. *)
Inductive Subseq {A : Type} : list A -> list A -> Prop :=
| Subseq_nil : Subseq [] []
| Subseq_skip (x : A) (l1 l2 : list A) : Subseq l1 l2 -> Subseq l1 (x :: l2)
| Subseq_keep (x : A) (l1 l2 : list A) : Subseq l1 l2 -> Subseq (x :: l1) (x :: l2).

(** The [.star] file name [_cleanUndesiredFiles] builds for iteration [i]. *)
Definition star_name (i : Z) (calcFile : string) : string :=
  "relion_it" ++ Py.fmt_03d i ++ "_" ++ calcFile ++ ".star".

End DeNovoTables.

(* ================================================================== *)
(** ** Facts about strings *)

Module PyFacts.
Import Py.

Lemma append_assoc (a b c : string) : (a ++ b) ++ c = a ++ (b ++ c).
Proof. induction a as [|x a IH]; simpl; [reflexivity | now rewrite IH]. Qed.

Lemma append_nil_r (a : string) : a ++ "" = a.
Proof. induction a as [|x a IH]; simpl; [reflexivity | now rewrite IH]. Qed.

Lemma length_append (a b : string) :
  String.length (a ++ b) = (String.length a + String.length b)%nat.
Proof. induction a as [|x a IH]; simpl; [reflexivity | now rewrite IH]. Qed.

(** A guarded [cmd += x] appends [x] or nothing. *)
Lemma if_append (c : bool) (a x : string) :
  (if c then a ++ x else a) = a ++ (if c then x else "").
Proof. destruct c; [reflexivity | now rewrite append_nil_r]. Qed.

(** Two ways of cutting one string share a middle part. *)
Lemma append_eq_append (a b c d : string) :
  a ++ b = c ++ d ->
  (exists m, c = a ++ m /\ b = m ++ d) \/ (exists m, a = c ++ m /\ d = m ++ b).
Proof.
  revert c. induction a as [|x a IH]; intros c H.
  - left. now exists c.
  - destruct c as [|y c].
    + right. exists (String x a). now split.
    + simpl in H. injection H as -> H.
      destruct (IH _ H) as [[m [-> ->]]|[m [-> ->]]].
      * left. now exists m.
      * right. now exists m.
Qed.

Lemma has_char_append (c : ascii) (a b : string) :
  has_char c (a ++ b) = has_char c a || has_char c b.
Proof.
  induction a as [|x a IH]; simpl; [reflexivity|].
  now rewrite IH, orb_assoc.
Qed.

Lemma Contains_refl (s : string) : Contains s s.
Proof. exists "", "". simpl. now rewrite append_nil_r. Qed.

Lemma Contains_app_l (t a b : string) : Contains t a -> Contains t (a ++ b).
Proof.
  intros [pre [post ->]]. exists pre, (post ++ b).
  now rewrite !append_assoc.
Qed.

Lemma Contains_app_r (t a b : string) : Contains t b -> Contains t (a ++ b).
Proof.
  intros [pre [post ->]]. exists (a ++ pre), post.
  now rewrite !append_assoc.
Qed.

Lemma prefix_spec (t s : string) :
  prefix t s = true <-> exists post, s = t ++ post.
Proof.
  revert s. induction t as [|x t IH]; intros s; simpl.
  - split; [intros _; now exists s | intros _; now destruct s].
  - destruct s as [|y s]; simpl.
    + split; [discriminate | intros [post H]; discriminate].
    + destruct (ascii_dec x y) as [->|Hxy].
      * rewrite IH. split; intros [post H]; exists post.
        -- now rewrite H.
        -- now injection H.
      * split; [discriminate|]. intros [post H]. injection H as H _.
        congruence.
Qed.

Lemma occursb_spec (t s : string) : occursb t s = true <-> Contains t s.
Proof.
  induction s as [|y s IH]; cbn [occursb].
  - rewrite orb_false_r, prefix_spec. split.
    + intros [post H]. now exists "", post.
    + intros [pre [post H]]. destruct pre; [now exists post | discriminate].
  - rewrite orb_true_iff, prefix_spec, IH. split.
    + intros [[post H]|[pre [post H]]].
      * now exists "", post.
      * exists (String y pre), post. simpl. now rewrite H.
    + intros [pre [post H]]. destruct pre as [|x pre].
      * left. now exists post.
      * right. simpl in H. injection H as _ H. now exists pre, post.
Qed.

Lemma not_Contains (t s : string) : occursb t s = false -> ~ Contains t s.
Proof. intros H star_file. apply occursb_spec in star_file. congruence. Qed.

(** A word that holds no space lies on one side of a space. *)
Lemma Contains_across_space (t a b : string) :
  has_char " " t = false ->
  Contains t (a ++ " " ++ b) -> Contains t a \/ Contains t b.
Proof.
  intros Ht [pre [post H]].
  destruct (append_eq_append _ _ _ _ H) as [[m [-> H1]]|[m [-> H1]]].
  - destruct m as [|x m]; simpl in H1.
    + destruct t as [|y t].
      * left. exists a, "". now rewrite append_nil_r.
      * simpl in H1. injection H1 as <- _. discriminate Ht.
    + injection H1 as _ ->. right. now exists m, post.
  - destruct (append_eq_append _ _ _ _ H1) as [[m2 [-> _]]|[m2 [-> H2]]].
    + left. now exists pre, m2.
    + destruct m2 as [|x m2]; simpl in H2.
      * left. exists pre, "". now rewrite !append_nil_r.
      * injection H2 as <- _.
        rewrite has_char_append in Ht. simpl in Ht.
        now rewrite orb_true_r in Ht.
Qed.

Lemma all_in_append (A a b : string) :
  all_in A (a ++ b) = all_in A a && all_in A b.
Proof.
  induction a as [|x a IH]; simpl; [reflexivity|].
  now rewrite IH, andb_assoc.
Qed.

Lemma all_in_Contains (A t s : string) :
  Contains t s -> all_in A s = true -> all_in A t = true.
Proof.
  intros [pre [post ->]]. rewrite !all_in_append, !andb_true_iff. tauto.
Qed.

Lemma digits_string_of_uint (d : Decimal.uint) :
  all_in "-0123456789" (NilEmpty.string_of_uint d) = true.
Proof. induction d; simpl; auto. Qed.

(** ['%i'] prints digits and a sign, nothing else. *)
Lemma fmt_i_digits (z : Z) : all_in "-0123456789" (fmt_i z) = true.
Proof.
  unfold fmt_i, NilZero.string_of_int, NilZero.string_of_uint.
  destruct (Z.to_int z) as [d|d]; destruct d;
    try reflexivity; apply digits_string_of_uint.
Qed.

Lemma Contains_nil (t : string) : Contains t "" -> t = "".
Proof.
  intros [pre [post H]]. destruct pre; [|discriminate].
  destruct t; [reflexivity | discriminate].
Qed.

Lemma spaced_app (a b : list Word) : spaced (a ++ b) = spaced a ++ spaced b.
Proof.
  induction a as [|w a IH]; simpl; [reflexivity|].
  now rewrite IH, !append_assoc.
Qed.

Lemma unwords_cons (w w' : Word) (ws : list Word) :
  unwords (w :: w' :: ws) = text w ++ " " ++ unwords (w' :: ws).
Proof. reflexivity. Qed.

Lemma unwords_app (ws : list Word) (w : Word) (rest : list Word) :
  unwords (ws ++ w :: rest) = spaced ws ++ unwords (w :: rest).
Proof.
  induction ws as [|x ws IH]; [reflexivity|].
  change ((x :: ws) ++ w :: rest)%list with (x :: (ws ++ w :: rest))%list.
  destruct ws as [|y ws]; cbn [app] in *.
  - rewrite unwords_cons. cbn [spaced]. now rewrite !append_assoc.
  - rewrite unwords_cons, IH. cbn [spaced]. now rewrite !append_assoc.
Qed.

(** A word without a space that occurs in a line occurs in one of the
    words of the line. *)
Lemma Contains_unwords (t : string) (ws : list Word) :
  has_char " " t = false -> t <> "" ->
  Contains t (unwords ws) -> exists w, In w ws /\ Contains t (text w).
Proof.
  intros Hsp Hne. induction ws as [|w ws IH]; intros H.
  - apply Contains_nil in H. contradiction.
  - destruct ws as [|w' ws].
    + exists w. split; [now left | exact H].
    + rewrite unwords_cons in H.
      destruct (Contains_across_space _ _ _ Hsp H) as [Hw|Hr].
      * exists w. split; [now left | exact Hw].
      * destruct (IH Hr) as [v [Hin Hv]]. exists v. split; [now right | exact Hv].
Qed.

End PyFacts.

(* ================================================================== *)
(** ** The de novo initial model command *)

Module DeNovoFacts.
Import Py PyFacts DeNovo.

Lemma let_elim {A B : Type} (e : A) (f : A -> B) (R : B) :
  (forall x, x = e -> f x = R) -> (let x := e in f x) = R.
Proof. intros H. exact (H e eq_refl). Qed.

(** One [cmd += ...] of the source: name the new value of [cmd] and
    express it from the previous one. *)
Ltac bind_cmd :=
  lazymatch goal with
  | |- (let x := ?e in @?f x) = ?R => apply (let_elim e f R)
  end;
  let c := fresh "cmd" in
  let H := fresh "Hcmd" in
  intros c H; cbv beta;
  rewrite ?if_append in H;
  try match goal with
      | Hp : ?p = _ |- _ =>
          match type of H with
          | context [p] => rewrite Hp in H; clear Hp; clear p
          end
      end.

Lemma spaced_flag (c : bool) (name : string) :
  spaced (flag c name) = if c then name ++ " " else "".
Proof. now destruct c. Qed.

Lemma spaced_optI (c : bool) (name : string) (z : Z) :
  spaced (optI c name z) = if c then name ++ " " ++ fmt_i z ++ " " else "".
Proof. now destruct c. Qed.

Lemma spaced_optS (c : bool) (name v : string) :
  spaced (optS c name v) = if c then name ++ " " ++ v ++ " " else "".
Proof. now destruct c. Qed.

(** The command is the generated words, each followed by a space, then
    the oversampling pair and the extra arguments. *)
Lemma genCommand_spaced (star_file : string) (self : ProtRelionDeNovoInitialModel) :
  _genCommand star_file self = spaced (generated star_file self) ++ tail self.
Proof.
  cbv beta delta [_genCommand].
  repeat bind_cmd.
  match goal with Hp : ?p = _ |- _ => rewrite Hp; clear Hp; clear p end.
  unfold generated, tail.
  rewrite !spaced_app, ?spaced_flag, ?spaced_optI, ?spaced_optS.
  cbn [spaced text].
  rewrite !append_assoc. cbn [append].
  reflexivity.
Qed.

(** The command is the words of [words] joined by single spaces. *)
Lemma genCommand_unwords (star_file : string) (self : ProtRelionDeNovoInitialModel) :
  _genCommand star_file self = unwords (words star_file self).
Proof.
  rewrite genCommand_spaced. unfold words, tail, extras.
  cbn [app]. rewrite unwords_app.
  destruct (truthy_s (getS self extraParams)); cbn [app];
    rewrite !unwords_cons; cbn [text unwords List.map String.concat];
    now rewrite ?append_nil_r, ?append_assoc.
Qed.

Ltac pick_member := repeat (first [left; reflexivity | right]).

(** Where a word of the command comes from: a flag name whose condition
    holds, a printed integer, or one of the strings copied as they are. *)
Lemma words_origin (star_file : string) (self : ProtRelionDeNovoInitialModel) (w : Word) :
  In w (words star_file self) ->
  match w with
  | WLit name => In (name, true) (guards self)
  | WInt _ => True
  | WStr v => In v (user_strings star_file self)
  end.
Proof.
  unfold words, generated, extras. rewrite !in_app_iff. intros H.
  repeat match goal with
         | H : _ \/ _ |- _ => destruct H as [H|H]
         end;
    try (unfold flag, optI, optS in H);
    try match type of H with
        | In _ (if ?c then _ else _) => destruct c eqn:E
        end;
    cbn [In] in H;
    repeat match goal with
           | H : _ \/ _ |- _ => destruct H as [H|H]
           end;
    try contradiction; subst w; cbn beta iota;
    try exact I; unfold guards, user_strings; rewrite ?E; pick_member.
Qed.

(** A flag-like token (no space, some character that is neither a digit
    nor a sign) occurring in the command is part of a flag name that was
    written, or lies inside one of the strings copied as they are. *)
Lemma token_origin (star_file : string) (self : ProtRelionDeNovoInitialModel) (t : string) :
  has_char " " t = false -> all_in "-0123456789" t = false ->
  Contains t (_genCommand star_file self) ->
  (exists name, In (name, true) (guards self) /\ Contains t name)
  \/ (exists v, In v (user_strings star_file self) /\ Contains t v).
Proof.
  intros Hsp Hnum H. rewrite genCommand_unwords in H.
  assert (Hne : t <> "") by (intros ->; discriminate Hnum).
  destruct (Contains_unwords _ _ Hsp Hne H) as [w [Hin Hw]].
  apply words_origin in Hin. destruct w as [name|z|v]; cbn [text] in Hw.
  - left. now exists name.
  - pose proof (all_in_Contains _ _ _ Hw (fmt_i_digits z)). congruence.
  - right. now exists v.
Qed.

Lemma Contains_spaced_here (b c : list Word) :
  Contains (spaced b) (spaced (b ++ c)).
Proof. rewrite spaced_app. apply Contains_app_l, Contains_refl. Qed.

Lemma Contains_spaced_later (t : string) (a b : list Word) :
  Contains t (spaced b) -> Contains t (spaced (a ++ b)).
Proof. rewrite spaced_app. apply Contains_app_r. Qed.

(** Walk down the generated words to the group that is looked for. *)
Ltac find_words :=
  first [ apply Contains_spaced_here
        | apply Contains_refl
        | apply Contains_spaced_later; find_words ].

Lemma tail_setB (p : BooleanParam) (v : bool) (self : ProtRelionDeNovoInitialModel) :
  tail (setB p v self) = tail self.
Proof. reflexivity. Qed.

(** A flag-like token none of whose possible carriers is written can
    only come from the strings copied as they are. *)
Lemma flag_not_written (star_file : string) (self : ProtRelionDeNovoInitialModel) (t : string) :
  has_char " " t = false -> all_in "-0123456789" t = false ->
  Forall (fun ng => snd ng = true -> occursb t (fst ng) = false) (guards self) ->
  Contains t (_genCommand star_file self) ->
  exists v, In v (user_strings star_file self) /\ Contains t v.
Proof.
  intros Hsp Hnum Hg H.
  destruct (token_origin star_file self t Hsp Hnum H) as [[name [Hin Hname]]|Hv];
    [exfalso | exact Hv].
  rewrite Forall_forall in Hg. specialize (Hg _ Hin eq_refl).
  cbn [fst] in Hg. now apply not_Contains in Hg.
Qed.

Ltac guards_hold :=
  repeat constructor; cbn [fst snd negb]; intros;
  first [reflexivity | discriminate].

(** Walk down the groups of [generated] to the one that starts with the
    word looked for. *)
Ltac find_word :=
  first [ apply in_or_app; left; solve [left; reflexivity]
        | apply in_or_app; right; find_word
        | solve [left; reflexivity] ].

(** The condition of the one flag name equal to the token. *)
Ltac guard_of H :=
  unfold guards in H; cbn [In] in H;
  repeat match type of H with
         | _ \/ _ => destruct H as [H|H]
         end;
  try contradiction; try discriminate H;
  injection H as H.

Lemma truthy_i_true (z : Z) : z <> 0 -> truthy_i z = true.
Proof. intros H. unfold truthy_i. now apply negb_true_iff, Z.eqb_neq. Qed.

Lemma truthy_i_nonzero (z : Z) : truthy_i z = true -> z <> 0.
Proof. unfold truthy_i. intros H. now apply negb_true_iff, Z.eqb_neq in H. Qed.

Lemma not_mpi_suffix : ~ EndsWith "_mpi" "relion_refine".
Proof.
  intros [pre H].
  repeat (destruct pre as [|? pre]; [discriminate H|];
          simpl in H; injection H as _ H).
  destruct pre; discriminate H.
Qed.

(** [getProgram] adds the suffix exactly for more than one process. *)
Lemma getProgram_mpi_suffix (n : Z) :
  EndsWith "_mpi" (getProgram "relion_refine" n) <-> 1 < n.
Proof.
  unfold getProgram. destruct (Z.ltb_spec 1 n) as [Hn|Hn]; split; intros H.
  - exact Hn.
  - now exists "relion_refine".
  - now apply not_mpi_suffix in H.
  - lia.
Qed.

(** C2. With gradient based optimisation on, [_generateDeNovo3DModel]
    runs [relion_refine] (no [_mpi] suffix) with one MPI process, whatever
    [numberOfMpi] is; with it off, it passes [numberOfMpi] and the program
    name ends in [_mpi] exactly when that count exceeds 1. The function is
    total: it produces the call in every case. *)
Theorem grad_forces_single_process (star_file : string) (self : ProtRelionDeNovoInitialModel) :
  (getB self gradBasedOpt = true ->
     run_numberOfMpi (_generateDeNovo3DModel star_file self) = Some 1
     /\ run_program (_generateDeNovo3DModel star_file self) = "relion_refine"
     /\ ~ EndsWith "_mpi" (run_program (_generateDeNovo3DModel star_file self)))
  /\ (getB self gradBasedOpt = false ->
      run_numberOfMpi (_generateDeNovo3DModel star_file self) = Some (getI self numberOfMpi)
      /\ run_program (_generateDeNovo3DModel star_file self)
         = "relion_refine" ++ (if 1 <? getI self numberOfMpi then "_mpi" else "")
      /\ (EndsWith "_mpi" (run_program (_generateDeNovo3DModel star_file self))
          <-> 1 < getI self numberOfMpi)).
Proof.
  unfold _generateDeNovo3DModel. cbn [run_numberOfMpi run_program].
  split; intros ->.
  - repeat split. apply not_mpi_suffix.
  - split; [reflexivity|]. split.
    + unfold getProgram. now destruct (1 <? getI self numberOfMpi).
    + apply getProgram_mpi_suffix.
Qed.

Lemma grad_forces_single_process_witness :
  (run_numberOfMpi (_generateDeNovo3DModel "particles.star" grad_with_mpi) = Some 1
   /\ run_program (_generateDeNovo3DModel "particles.star" grad_with_mpi) = "relion_refine"
   /\ ~ EndsWith "_mpi" (run_program (_generateDeNovo3DModel "particles.star" grad_with_mpi)))
  /\ (run_numberOfMpi (_generateDeNovo3DModel "particles.star" (default_form 200))
       = Some (getI (default_form 200) numberOfMpi)
      /\ run_program (_generateDeNovo3DModel "particles.star" (default_form 200))
         = "relion_refine"
             ++ (if 1 <? getI (default_form 200) numberOfMpi then "_mpi" else "")
      /\ (EndsWith "_mpi" (run_program (_generateDeNovo3DModel "particles.star" (default_form 200)))
          <-> 1 < getI (default_form 200) numberOfMpi)).
Proof.
  split.
  - apply (proj1 (grad_forces_single_process "particles.star" grad_with_mpi)).
    reflexivity.
  - apply (proj2 (grad_forces_single_process "particles.star" (default_form 200))).
    reflexivity.
Defined.

(** C1 (as amended). Among the words [_genCommand] writes, the flag
    [--dont_combine_weights_via_disc] is present exactly when
    [combineItersDisc] is false. So when it is false the command holds the
    flag; when it is true the token can occur in the command only inside
    one of the strings copied as they are (the two paths, symmetry,
    scratch directory, GPU list, extra arguments). *)
Theorem dont_combine_flag (star_file : string) (self : ProtRelionDeNovoInitialModel) :
  _genCommand star_file self = unwords (words star_file self)
  /\ (In (WLit dont_combine) (words star_file self)
      <-> getB self combineItersDisc = false)
  /\ (getB self combineItersDisc = false ->
      Contains "--dont_combine_weights_via_disc " (_genCommand star_file self))
  /\ (getB self combineItersDisc = true ->
      Contains dont_combine (_genCommand star_file self) ->
      exists v, In v (user_strings star_file self) /\ Contains dont_combine v).
Proof.
  split; [apply genCommand_unwords|]. split; [split|split]; intros Hc.
  - apply (words_origin star_file self (WLit dont_combine)) in Hc.
    guard_of Hc. now apply negb_true_iff in Hc.
  - unfold words. apply in_or_app; left. unfold generated. rewrite Hc.
    find_word.
  - rewrite genCommand_spaced. apply Contains_app_l.
    unfold generated. rewrite Hc. cbn [negb].
    change "--dont_combine_weights_via_disc "
      with (spaced (flag true "--dont_combine_weights_via_disc")).
    find_words.
  - apply flag_not_written; try reflexivity.
    unfold guards. rewrite Hc. guards_hold.
Qed.

Lemma dont_combine_flag_witness :
  Contains "--dont_combine_weights_via_disc "
    (_genCommand "particles.star" (default_form 200))
  /\ exists v, In v (user_strings "particles.star" combining_with_extra_flag)
               /\ Contains dont_combine v.
Proof.
  split.
  - apply (proj1 (proj2 (proj2 (dont_combine_flag "particles.star"
                                  (default_form 200))))).
    reflexivity.
  - apply (proj2 (proj2 (proj2 (dont_combine_flag "particles.star"
                                  combining_with_extra_flag)))).
    + reflexivity.
    + apply occursb_spec. vm_compute. reflexivity.
Defined.

Lemma dont_combine_flag_from_extras :
  ~ dont_combine_iff_not_combining "particles.star" combining_with_extra_flag.
Proof.
  unfold dont_combine_iff_not_combining. intros [H _].
  assert (Hc : Contains dont_combine
                 (_genCommand "particles.star" combining_with_extra_flag))
    by (apply occursb_spec; vm_compute; reflexivity).
  specialize (H Hc). discriminate H.
Qed.

Lemma concat_split {A : Type} (k : nat) (l : list (list A)) :
  List.concat l = (List.concat (firstn k l) ++ nth k l [] ++ List.concat (skipn (S k) l))%list.
Proof.
  revert l. induction k as [|k IH]; intros [|x l]; cbn [firstn nth skipn List.concat app];
    try reflexivity.
  now rewrite (IH l) at 1; rewrite <- !app_assoc.
Qed.

Lemma generated_groups (star_file : string) (self : ProtRelionDeNovoInitialModel) :
  generated star_file self = List.concat (groups star_file self).
Proof.
  unfold generated, groups. cbn [List.concat]. now rewrite app_nil_r.
Qed.

(** The command around the group of index [k]. *)
Lemma genCommand_groups (star_file : string) (k : nat)
    (self : ProtRelionDeNovoInitialModel) :
  _genCommand star_file self
  = text_before star_file k self
      ++ spaced (nth k (groups star_file self) [])
      ++ text_after star_file k self.
Proof.
  rewrite genCommand_spaced, generated_groups.
  rewrite (concat_split k) at 1.
  unfold text_before, text_after.
  now rewrite !spaced_app, !append_assoc.
Qed.

(** Setting the parameter of the group of index [k]: the groups before
    and after it do not read the parameter. *)
Ltac toggle_in_group H :=
  match goal with
  | |- _ = text_before ?s ?k ?self ++ _ /\ ?c = _ /\ _ =>
      match c with
      | _genCommand _ ?self' =>
          assert (Hbefore : text_before s k self' = text_before s k self)
            by (unfold text_before, groups;
                cbn [firstn getB setB BooleanParam_eqb getI getS host
                     inputPseudoSubtomosProt]; reflexivity);
          assert (Hafter : text_after s k self' = text_after s k self)
            by (unfold text_after, groups; rewrite tail_setB;
                cbn [skipn getB setB BooleanParam_eqb getI getS host
                     inputPseudoSubtomosProt]; reflexivity);
          split; [|split; [|split; assumption]];
          [ rewrite (genCommand_groups s k self)
          | rewrite (genCommand_groups s k self'), Hbefore, Hafter ];
          unfold groups;
          cbn [nth getB setB BooleanParam_eqb getI getS host
               inputPseudoSubtomosProt];
          rewrite ?H; cbn [negb flag optS spaced text append]; reflexivity
      end
  end.

(** C4 (as amended). Setting one boolean parameter that was false
    changes the command at one fixed place, the place of its line in the
    source ([place]): the text before that place and the text after it
    are the same in both commands. At that place the ten plain toggles
    insert their flag, [doGpu] inserts the pair [--gpu <list>], and
    [combineItersDisc] takes the flag [--dont_combine_weights_via_disc]
    out and inserts nothing. [keepOnlyLastIterFiles] has no place: the
    command does not change. *)
Theorem toggle_writes_flag (star_file : string) (self : ProtRelionDeNovoInitialModel)
    (p : BooleanParam) :
  getB self p = false ->
  match place p with
  | Some k =>
      _genCommand star_file self
        = text_before star_file k self ++ taken_when_set p
            ++ text_after star_file k self
      /\ _genCommand star_file (setB p true self)
        = text_before star_file k self ++ written_when_set p self
            ++ text_after star_file k self
      /\ text_before star_file k (setB p true self) = text_before star_file k self
      /\ text_after star_file k (setB p true self) = text_after star_file k self
  | None =>
      _genCommand star_file (setB p true self) = _genCommand star_file self
  end.
Proof.
  intros H.
  destruct p; cbn [place taken_when_set written_when_set];
    try toggle_in_group H.
  rewrite !genCommand_spaced, tail_setB. reflexivity.
Qed.

Lemma toggle_writes_flag_witness :
  getB (default_form 200) gradBasedOpt = false
  /\ _genCommand "particles.star" (default_form 200)
     = ("--i Runs/000101_ProtRelionMakePseudoSubtomograms/extra/particles.star "
          ++ "--o Runs/000123_ProtRelionDeNovoInitialModel/extra --denovo_3dref "
          ++ "--j 1 --ctf --iter 25 --K 1 --particle_diameter 200 ")
       ++ ""
       ++ ("--grad_write_iter 10 --sym C1 --healpix_order 2 --offset_step 2 "
             ++ "--offset_range 6 --pool 1 --dont_combine_weights_via_disc "
             ++ "oversampling 1")
  /\ _genCommand "particles.star" (setB gradBasedOpt true (default_form 200))
     = ("--i Runs/000101_ProtRelionMakePseudoSubtomograms/extra/particles.star "
          ++ "--o Runs/000123_ProtRelionDeNovoInitialModel/extra --denovo_3dref "
          ++ "--j 1 --ctf --iter 25 --K 1 --particle_diameter 200 ")
       ++ "--grad "
       ++ ("--grad_write_iter 10 --sym C1 --healpix_order 2 --offset_step 2 "
             ++ "--offset_range 6 --pool 1 --dont_combine_weights_via_disc "
             ++ "oversampling 1").
Proof.
  split; [reflexivity|].
  pose proof (toggle_writes_flag "particles.star" (default_form 200)
                gradBasedOpt eq_refl) as [H1 [H2 _]].
  split; [exact H1 | exact H2].
Defined.

(** Setting [combineItersDisc] on the default form shortens the command:
    no token is inserted. *)
Lemma toggle_combine_inserts_nothing :
  getB (default_form 200) combineItersDisc = false
  /\ ~ toggle_inserts_token "particles.star" (default_form 200) combineItersDisc.
Proof.
  split; [reflexivity|].
  intros [tok [pre [post [_ [H1 H2]]]]].
  apply (f_equal String.length) in H1, H2.
  rewrite length_append in H1. repeat rewrite length_append in H2.
  assert (Hlt : (String.length (_genCommand "particles.star"
                                  (setB combineItersDisc true (default_form 200)))
                 < String.length (_genCommand "particles.star" (default_form 200)))%nat)
    by (apply Nat.ltb_lt; vm_compute; reflexivity).
  revert H1 H2 Hlt.
  generalize (String.length (_genCommand "particles.star" (default_form 200))),
    (String.length (_genCommand "particles.star"
                      (setB combineItersDisc true (default_form 200)))),
    (String.length pre), (String.length tok), (String.length post).
  intros a b c d e. lia.
Qed.

Lemma all_false_form_at_defaults (d : Z) :
  all_false_at_defaults (all_false_form d).
Proof.
  split; [reflexivity | split].
  - intros p z H. destruct p; cbn in *; congruence.
  - intros p. now destruct p.
Qed.

(** C3 (as amended). With every boolean parameter false and every
    parameter at its declared default, the command is made of the
    mandatory words (paths, operation flag, the options always written)
    and of two more: [--grad_write_iter 10], written because the default
    of [gradWriteIter] is not zero, and [--dont_combine_weights_via_disc],
    written because [combineItersDisc] is false. No other conditional
    flag is in it. *)
Theorem defaults_command (star_file : string) (self : ProtRelionDeNovoInitialModel) :
  all_false_at_defaults self ->
  words star_file self =
    [WLit "--i"; WStr (_getExtraPath (inputPseudoSubtomosProt self) [star_file]);
     WLit "--o"; WStr (_getExtraPath (host self) []);
     WLit "--denovo_3dref"; WLit "--j"; WInt 1;
     WLit "--iter"; WInt 25; WLit "--K"; WInt 1;
     WLit "--particle_diameter"; WInt (getI self maskDiameter);
     WLit "--grad_write_iter"; WInt 10;
     WLit "--sym"; WStr "C1"; WLit "--healpix_order"; WInt 2;
     WLit "--offset_step"; WInt 2; WLit "--offset_range"; WInt 6;
     WLit "--pool"; WInt 1;
     WLit "--dont_combine_weights_via_disc";
     WLit "oversampling"; WInt 1]
  /\ _genCommand star_file self =
       "--i " ++ _getExtraPath (inputPseudoSubtomosProt self) [star_file]
       ++ " --o " ++ _getExtraPath (host self) []
       ++ " --denovo_3dref --j 1 --iter 25 --K 1 --particle_diameter "
       ++ fmt_i (getI self maskDiameter)
       ++ " --grad_write_iter 10 --sym C1 --healpix_order 2 --offset_step 2 --offset_range 6 --pool 1 --dont_combine_weights_via_disc oversampling 1".
Proof.
  intros [HB [HI HS]].
  assert (Hw : words star_file self = 
    [WLit "--i"; WStr (_getExtraPath (inputPseudoSubtomosProt self) [star_file]);
     WLit "--o"; WStr (_getExtraPath (host self) []);
     WLit "--denovo_3dref"; WLit "--j"; WInt 1;
     WLit "--iter"; WInt 25; WLit "--K"; WInt 1;
     WLit "--particle_diameter"; WInt (getI self maskDiameter);
     WLit "--grad_write_iter"; WInt 10;
     WLit "--sym"; WStr "C1"; WLit "--healpix_order"; WInt 2;
     WLit "--offset_step"; WInt 2; WLit "--offset_range"; WInt 6;
     WLit "--pool"; WInt 1;
     WLit "--dont_combine_weights_via_disc";
     WLit "oversampling"; WInt 1]).
  { unfold words, generated, extras. rewrite !HB, !HS.
    rewrite (HI numberOfThreads 1), (HI maxNumberOfIterations 25),
      (HI numberOfClasses 1), (HI zeroMask 0), (HI gradWriteIter 10),
      (HI angularSamplingDeg 2), (HI offsetSearchStepPix 2),
      (HI offsetSearchRangePix 6), (HI pooledSubtomos 1), (HI oversampling 1)
      by reflexivity.
    reflexivity. }
  split; [exact Hw|].
  rewrite genCommand_unwords, Hw.
  cbn [unwords List.map String.concat text].
  change (fmt_i 1) with "1". change (fmt_i 25) with "25".
  change (fmt_i 10) with "10". change (fmt_i 2) with "2". change (fmt_i 6) with "6".
  reflexivity.
Qed.

Lemma defaults_command_witness :
  all_false_at_defaults (all_false_form 200)
  /\ _genCommand "particles.star" (all_false_form 200) =
       "--i " ++ _getExtraPath (inputPseudoSubtomosProt (all_false_form 200))
                   ["particles.star"]
       ++ " --o " ++ _getExtraPath (host (all_false_form 200)) []
       ++ " --denovo_3dref --j 1 --iter 25 --K 1 --particle_diameter "
       ++ fmt_i (getI (all_false_form 200) maskDiameter)
       ++ " --grad_write_iter 10 --sym C1 --healpix_order 2 --offset_step 2 --offset_range 6 --pool 1 --dont_combine_weights_via_disc oversampling 1".
Proof.
  split; [apply all_false_form_at_defaults|].
  exact (proj2 (defaults_command "particles.star" (all_false_form 200)
                  (all_false_form_at_defaults 200))).
Defined.

(** With all booleans false and all defaults, the command is not the
    mandatory words alone. *)
Lemma defaults_command_has_conditional_flags :
  all_false_at_defaults (all_false_form 200)
  /\ ~ only_mandatory_words "particles.star" (all_false_form 200).
Proof.
  split; [apply all_false_form_at_defaults|].
  unfold only_mandatory_words. apply String.eqb_neq.
  vm_compute. reflexivity.
Qed.

(** C5 (as amended). Among the words [_genCommand] writes, the flag
    [--gpu] (followed by the device list) is present exactly when [doGpu]
    is true, and the flag [--grad_write_iter] (followed by its value) is
    present exactly when [gradWriteIter] is not zero, whatever
    [gradBasedOpt] is. A flag that is not written can occur in the command
    only inside one of the strings copied as they are. *)
Theorem conditional_options (star_file : string) (self : ProtRelionDeNovoInitialModel) :
  (In (WLit "--gpu") (words star_file self) <-> getB self doGpu = true)
  /\ (In (WLit "--grad_write_iter") (words star_file self)
      <-> getI self gradWriteIter <> 0)
  /\ (getB self doGpu = true ->
      Contains ("--gpu " ++ fmt_s (getS self gpusToUse) ++ " ") (_genCommand star_file self))
  /\ (getB self doGpu = false ->
      Contains "--gpu" (_genCommand star_file self) ->
      exists v, In v (user_strings star_file self) /\ Contains "--gpu" v)
  /\ (getI self gradWriteIter <> 0 ->
      Contains ("--grad_write_iter " ++ fmt_i (getI self gradWriteIter) ++ " ")
        (_genCommand star_file self))
  /\ (getI self gradWriteIter = 0 ->
      Contains "--grad_write_iter" (_genCommand star_file self) ->
      exists v, In v (user_strings star_file self) /\ Contains "--grad_write_iter" v).
Proof.
  split; [split|split; [split|split; [|split; [|split]]]].
  - intros H. apply (words_origin star_file self (WLit "--gpu")) in H.
    guard_of H. exact H.
  - intros Hg. unfold words. apply in_or_app; left. unfold generated.
    rewrite Hg. find_word.
  - intros H. apply (words_origin star_file self (WLit "--grad_write_iter")) in H.
    guard_of H. now apply truthy_i_nonzero.
  - intros Hn. unfold words. apply in_or_app; left. unfold generated.
    rewrite (truthy_i_true _ Hn). find_word.
  - intros Hg. rewrite genCommand_spaced. apply Contains_app_l.
    unfold generated. rewrite Hg.
    change ("--gpu " ++ fmt_s (getS self gpusToUse) ++ " ")
      with (spaced (optS true "--gpu" (fmt_s (getS self gpusToUse)))).
    find_words.
  - intros Hg. apply flag_not_written; try reflexivity.
    unfold guards. rewrite Hg. guards_hold.
  - intros Hn. rewrite genCommand_spaced. apply Contains_app_l.
    unfold generated. rewrite (truthy_i_true _ Hn).
    change ("--grad_write_iter " ++ fmt_i (getI self gradWriteIter) ++ " ")
      with (spaced (optI true "--grad_write_iter" (getI self gradWriteIter))).
    find_words.
  - intros Hz. apply flag_not_written; try reflexivity.
    unfold guards. rewrite Hz. guards_hold.
Qed.

Lemma conditional_options_witness :
  Contains ("--gpu " ++ fmt_s (getS (setB doGpu true (default_form 200)) gpusToUse) ++ " ")
    (_genCommand "particles.star" (setB doGpu true (default_form 200)))
  /\ (exists v, In v (user_strings "particles.star" gpu_off_extra_gpu)
                /\ Contains "--gpu" v)
  /\ Contains ("--grad_write_iter " ++ fmt_i (getI (default_form 200) gradWriteIter) ++ " ")
       (_genCommand "particles.star" (default_form 200))
  /\ (exists v, In v (user_strings "particles.star" write_iter_zero_extra)
                /\ Contains "--grad_write_iter" v).
Proof.
  repeat split.
  - apply (proj1 (proj2 (proj2 (conditional_options "particles.star"
                                  (setB doGpu true (default_form 200)))))).
    reflexivity.
  - apply (proj1 (proj2 (proj2 (proj2 (conditional_options "particles.star"
                                         gpu_off_extra_gpu))))).
    + reflexivity.
    + apply occursb_spec. vm_compute. reflexivity.
  - apply (proj1 (proj2 (proj2 (proj2 (proj2
             (conditional_options "particles.star" (default_form 200))))))).
    vm_compute. discriminate.
  - apply (proj2 (proj2 (proj2 (proj2 (proj2
             (conditional_options "particles.star" write_iter_zero_extra)))))).
    + reflexivity.
    + apply occursb_spec. vm_compute. reflexivity.
Defined.

(** On the default form gradient based optimisation is off and the
    command holds [--grad_write_iter]. *)
Lemma grad_write_iter_without_grad :
  ~ grad_write_iter_only_with_grad "particles.star" (default_form 200).
Proof.
  unfold grad_write_iter_only_with_grad. intros H.
  assert (Hc : Contains "--grad_write_iter"
                 (_genCommand "particles.star" (default_form 200)))
    by (apply occursb_spec; vm_compute; reflexivity).
  specialize (H Hc). discriminate H.
Qed.

(** C6. With mask diameter 200, 25 iterations, 1 class, symmetry C1,
    angular sampling index 2 and CTF correction on, the command holds
    [--ctf ], [--iter 25 ], [--K 1 ], [--particle_diameter 200 ],
    [--sym C1 ] and [--healpix_order 2 ], in that order. *)
Theorem scenario_order (star_file : string) (self : ProtRelionDeNovoInitialModel) :
  getI self maskDiameter = 200 ->
  getI self maxNumberOfIterations = 25 ->
  getI self numberOfClasses = 1 ->
  getS self symmetry = Some "C1" ->
  getI self angularSamplingDeg = 2 ->
  getB self doCTF = true ->
  exists a b c d e f g,
    _genCommand star_file self =
      a ++ "--ctf " ++ b ++ "--iter 25 " ++ c ++ "--K 1 " ++ d
        ++ "--particle_diameter 200 " ++ e ++ "--sym C1 " ++ f
        ++ "--healpix_order 2 " ++ g.
Proof.
  intros Hd Hi Hk Hs Ha Hc.
  rewrite genCommand_spaced. unfold generated.
  rewrite Hd, Hi, Hk, Hs, Ha, Hc.
  exists (spaced [WLit "--i"; WStr (_getExtraPath (inputPseudoSubtomosProt self) [star_file]);
      WLit "--o"; WStr (_getExtraPath (host self) []);
      WLit "--denovo_3dref";
      WLit "--j"; WInt (getI self numberOfThreads)]).
  exists (spaced (flag (getB self ignoreCTFUntilFirstPeak) "--ctf_intact_first_peak"
     ++ flag (getB self ctfPhaseFlipped) "--ctf_phase_flipped"
     ++ flag (getB self padCtf) "--pad_ctf"
     ++ flag (getB self ctfUncorrectedRef) "--ctf_uncorrected_ref")).
  exists "", "".
  exists (spaced (flag (Py.truthy_i (getI self zeroMask)) "--zero_mask"
     ++ flag (getB self flattenSolvent) "--flatten_solvent"
     ++ flag (getB self gradBasedOpt) "--grad"
     ++ optI (Py.truthy_i (getI self gradWriteIter)) "--grad_write_iter"
             (getI self gradWriteIter)
     ++ flag (getB self noInitBlobs) "--no_init_blobs")).
  exists "".
  eexists.
  rewrite !spaced_app. cbn [spaced text flag fmt_s].
  change (fmt_i 25) with "25". change (fmt_i 1) with "1".
  change (fmt_i 200) with "200". change (fmt_i 2) with "2".
  rewrite !append_assoc. cbn [append].
  repeat f_equal.
Qed.
Lemma scenario_order_witness :
  exists a b c d e f g,
    _genCommand "particles.star" (default_form 200) =
      a ++ "--ctf " ++ b ++ "--iter 25 " ++ c ++ "--K 1 " ++ d
        ++ "--particle_diameter 200 " ++ e ++ "--sym C1 " ++ f
        ++ "--healpix_order 2 " ++ g.
Proof.
  apply (scenario_order "particles.star" (default_form 200)); reflexivity.
Defined.

Lemma spaced_ends_with_space (ws : list Word) :
  ws <> [] -> EndsWith " " (spaced ws).
Proof.
  induction ws as [|w ws IH]; intros H; [contradiction|].
  destruct ws as [|w' ws].
  - exists (text w). reflexivity.
  - destruct IH as [pre Hpre]; [discriminate|].
    exists (text w ++ " " ++ pre). cbn [spaced] in *.
    now rewrite Hpre, !append_assoc.
Qed.

(** C10. The oversampling option is written as [oversampling <n>],
    without [--]: a space comes before it. It is written whatever the
    parameters are, after every other generated option, and only the
    extra arguments (when given) follow it. *)
Theorem oversampling_written_last (star_file : string) (self : ProtRelionDeNovoInitialModel) :
  exists pre,
    EndsWith " " pre
    /\ _genCommand star_file self =
         pre ++ "oversampling " ++ fmt_i (getI self oversampling)
             ++ (if truthy_s (getS self extraParams)
                 then " " ++ fmt_s (getS self extraParams) else "")
    /\ words star_file self =
         (generated star_file self
            ++ [WLit "oversampling"; WInt (getI self oversampling)]
            ++ extras self)%list.
Proof.
  exists (spaced (generated star_file self)). repeat split.
  - apply spaced_ends_with_space. unfold generated. cbn [app]. discriminate.
  - apply genCommand_spaced.
Qed.

Section Run.

Variable star_file : string.
Variable abspath : string -> string.
Variable relion : RunRelionTomo -> PyIO.FileSystem -> PyIO.FileSystem.

(** C9. The only step inserted is [_generateDeNovo3DModel]:
    [_cleanUndesiredFiles] is never invoked in a run, no file is
    removed by it, and the value of [keepOnlyLastIterFiles] changes
    neither the command nor the run. *)
Theorem clean_never_invoked (self : ProtRelionDeNovoInitialModel)
    (b : bool) (w : World) :
  _insertAllSteps self = [Step_generateDeNovo3DModel]
  /\ ~ In Step_cleanUndesiredFiles (_insertAllSteps self)
  /\ invoked (run star_file abspath relion self w)
       = (invoked w ++ [Step_generateDeNovo3DModel])%list
  /\ files (run star_file abspath relion self w)
       = relion (_generateDeNovo3DModel star_file self) (files w)
  /\ _genCommand star_file (setB keepOnlyLastIterFiles b self) = _genCommand star_file self
  /\ _insertAllSteps (setB keepOnlyLastIterFiles b self) = _insertAllSteps self
  /\ run star_file abspath relion (setB keepOnlyLastIterFiles b self) w
       = run star_file abspath relion self w.
Proof.
  assert (Hcmd : _genCommand star_file (setB keepOnlyLastIterFiles b self)
                 = _genCommand star_file self).
  { rewrite !genCommand_spaced, tail_setB. reflexivity. }
  split; [reflexivity|]. split.
  { cbn [_insertAllSteps In]. intros [H|[]]. discriminate H. }
  split; [reflexivity|]. split; [reflexivity|].
  split; [exact Hcmd|]. split; [reflexivity|].
  unfold run, _insertAllSteps. cbn [fold_left runStep].
  unfold _generateDeNovo3DModel. rewrite Hcmd. reflexivity.
Qed.

End Run.

End DeNovoFacts.

(* ================================================================== *)
(** ** The tomogram reconstruction command and its output *)

Module RecTomoFacts.
Import Py PyFacts RecTomo.

(** The command around the binning option. *)
Lemma genTomoRecCommand_layout (self : ProtRelionTomoReconstruct) :
  _genTomoRecCommand self =
    ("--t " ++ getTomograms (inReParticles self) ++ " --tn " ++ tomoId self
       ++ " --o " ++ _getOutTomoFileName self ++ " ")
    ++ ("--bin " ++ fmt_1f (binFactor self) ++ " ")
    ++ ("--w " ++ fmt_i (width self) ++ " --h " ++ fmt_i (height self)
        ++ " --d " ++ fmt_i (thickness self)
        ++ " --j " ++ fmt_i (numberOfThreads self) ++ " ").
Proof.
  unfold _genTomoRecCommand. cbv zeta.
  rewrite !append_assoc. reflexivity.
Qed.

Lemma bin_option_layout (self : ProtRelionTomoReconstruct) :
  exists pre post,
    EndsWith " " pre
    /\ _genTomoRecCommand self
       = pre ++ ("--bin " ++ fmt_1f (binFactor self) ++ " ") ++ post.
Proof.
  eexists. eexists. split; [|apply genTomoRecCommand_layout].
  exists ("--t " ++ getTomograms (inReParticles self) ++ " --tn " ++ tomoId self
            ++ " --o " ++ _getOutTomoFileName self).
  now rewrite !append_assoc.
Qed.

(** Rounding of ten times a value, from the value as a fraction. *)
Lemma round_tenfold (n : Z) (d : positive) :
  round_half_even (Qabs (n # d) * (10 # 1)) =
    let N := Z.abs n * 10 in
    let D := Z.pos d in
    if 2 * (N mod D) <? D then N / D
    else if D <? 2 * (N mod D) then N / D + 1
    else if Z.even (N / D) then N / D else N / D + 1.
Proof.
  unfold round_half_even. cbn [Qabs Qmult Qnum Qden].
  now rewrite Pos.mul_1_r.
Qed.









(** C8. The tomogram defined by [_createOutputStep] is located at
    [<tomoId>.mrc] in the extra directory, the path written after
    [--o ] in the command, and its sampling rate is the product of the
    tilt series sampling rate and the binning factor, as binary64
    floats multiply: the exact product, rounded. *)
Theorem output_tomogram (self : ProtRelionTomoReconstruct) (o : Outputs) :
  exists tomo sr,
    definedOutputs (_createOutputStep self o)
      = (definedOutputs o ++ [("tomogram", tomo)])%list
    /\ location tomo = Some (_getExtraPath (host self) [tomoId self ++ ".mrc"])
    /\ samplingRate tomo = Some sr
    /\ sr = (getTsSamplingRate (inReParticles self) * binFactor self)%float
    /\ Prim2SF sr
       = SF64mul (Prim2SF (getTsSamplingRate (inReParticles self)))
                 (Prim2SF (binFactor self))
    /\ tsId tomo = Some (tomoId self)
    /\ exists pre post,
         _genTomoRecCommand self
           = pre ++ "--o " ++ _getExtraPath (host self) [tomoId self ++ ".mrc"]
                 ++ " " ++ post.
Proof.
  eexists. eexists. do 4 (split; [reflexivity|]).
  split; [apply mul_spec|]. split; [reflexivity|].
  rewrite genTomoRecCommand_layout. unfold _getOutTomoFileName.
  exists ("--t " ++ getTomograms (inReParticles self) ++ " --tn " ++ tomoId self ++ " ").
  eexists. rewrite !append_assoc. cbn [append]. reflexivity.
Qed.

(** With the default binning factor 8, particles of sampling rate 1.25
    give a tomogram of sampling rate 10. *)
Lemma output_tomogram_default_binning :
  List.map (fun out => samplingRate (snd out))
    (definedOutputs (_createOutputStep (reconstruct_form 8)
       {| fixedVolumes := []; definedOutputs := []; sourceRelations := [] |}))
  = [Some 10%float].
Proof. reflexivity. Qed.

End RecTomoFacts.
(* ================================================================== *)
(** ** Facts about string methods and paths *)

Module PyPathFacts.
Import Py PyFacts PyPath.

Lemma endswith_spec (s t : string) : endswith s t = true <-> EndsWith t s.
Proof.
  induction s as [|c s IH]; cbn [endswith].
  - rewrite orb_false_r, String.eqb_eq. split.
    + intros <-. now exists "".
    + intros [pre H]. destruct pre; [exact H | discriminate H].
  - rewrite orb_true_iff, String.eqb_eq, IH. split.
    + intros [<-|[pre ->]]; [now exists "" | now exists (String c pre)].
    + intros [pre H]. destruct pre as [|x pre].
      * left. exact H.
      * right. simpl in H. injection H as _ H. now exists pre.
Qed.

Lemma startswith_spec (s t : string) :
  startswith s t = true <-> exists post, s = t ++ post.
Proof. apply prefix_spec. Qed.

Lemma split_not_nil (sep : ascii) (s : string) : split sep s <> [].
Proof.
  destruct s as [|c s]; cbn [split]; [discriminate|].
  destruct (Ascii.eqb c sep); [discriminate|].
  destruct (split sep s); discriminate.
Qed.

(** No piece holds the separator. *)
Lemma split_pieces (sep : ascii) (s : string) :
  Forall (fun p => has_char sep p = false) (split sep s).
Proof.
  induction s as [|c s IH]; cbn [split].
  - now repeat constructor.
  - destruct (Ascii.eqb c sep) eqn:E.
    + now constructor.
    + destruct (split sep s) as [|p ps].
      * repeat constructor. cbn. rewrite Ascii.eqb_sym, E. reflexivity.
      * inversion IH as [|? ? Hp Hps]; subst. constructor; [|exact Hps].
        cbn. now rewrite Ascii.eqb_sym, E, Hp.
Qed.

(** A string without the separator is its own single piece. *)
Lemma split_whole (sep : ascii) (s : string) :
  has_char sep s = false -> split sep s = [s].
Proof.
  induction s as [|c s IH]; cbn; [reflexivity|].
  intros H. apply orb_false_iff in H as [Hc Hs].
  rewrite Ascii.eqb_sym, Hc, (IH Hs). reflexivity.
Qed.

(** One piece only: there was no separator. *)
Lemma split_one (sep : ascii) (s : string) :
  List.length (split sep s) = 1%nat -> has_char sep s = false.
Proof.
  induction s as [|c s IH]; cbn [split]; [reflexivity|].
  destruct (Ascii.eqb c sep) eqn:E.
  - cbn [List.length]. pose proof (split_not_nil sep s).
    destruct (split sep s); [contradiction | discriminate].
  - pose proof (split_not_nil sep s) as Hn.
    destruct (split sep s) as [|p ps] eqn:Hs; [contradiction|].
    cbn [List.length]. intros H. cbn. rewrite Ascii.eqb_sym, E.
    apply IH. exact H.
Qed.

(** Splitting what ends in a separator and a last piece. *)
Lemma split_snoc (sep : ascii) (a b : string) :
  has_char sep b = false ->
  split sep (a ++ String sep b) = (split sep a ++ [b])%list.
Proof.
  intros Hb. induction a as [|c a IH]; cbn [append split].
  - now rewrite Ascii.eqb_refl, (split_whole sep b Hb).
  - destruct (Ascii.eqb c sep); rewrite IH; [reflexivity|].
    pose proof (split_not_nil sep a).
    destruct (split sep a); [contradiction | reflexivity].
Qed.

Lemma concat_cons2 (sep x y : string) (l : list string) :
  String.concat sep (x :: y :: l) = x ++ sep ++ String.concat sep (y :: l).
Proof. reflexivity. Qed.

(** Joining the pieces with the separator gives the string back. *)
Lemma split_concat (sep : ascii) (s : string) :
  String.concat (String sep "") (split sep s) = s.
Proof.
  induction s as [|c s IH]; cbn [split]; [reflexivity|].
  pose proof (split_not_nil sep s) as Hn.
  destruct (split sep s) as [|p ps] eqn:Hs; [contradiction|].
  destruct (Ascii.eqb_spec c sep) as [->|Hc].
  - now rewrite concat_cons2, IH.
  - destruct ps as [|p' ps].
    + cbn [String.concat] in *. now rewrite <- IH.
    + rewrite concat_cons2 in *. now rewrite <- IH.
Qed.

Lemma from_end_snoc_1 {A : Type} (l : list A) (x : A) :
  from_end 1 (l ++ [x]) = Some x.
Proof. unfold from_end. now rewrite rev_app_distr. Qed.

Lemma from_end_snoc_2 {A : Type} (l : list A) (y x : A) :
  from_end 2 ((l ++ [y]) ++ [x]) = Some y.
Proof. unfold from_end. now rewrite !rev_app_distr. Qed.

Lemma append_inj_l (a x y : string) : a ++ x = a ++ y -> x = y.
Proof.
  induction a as [|c a IH]; cbn; [auto|]. intros H. injection H as H. auto.
Qed.

End PyPathFacts.

(* ================================================================== *)
(** ** reliontomo/utils.py: the properties of the helpers *)

Module UtilsFacts.
Import Py PyFacts PyPath PyPathFacts Utils.

(** X1. [getProgram], whatever the program: the name is kept as a prefix, it
    is returned unchanged exactly for at most one process, and it gets the
    suffix [_mpi] for more. *)
Theorem getProgram_any_program (program : string) (nMpi : Z) :
  startswith (getProgram program nMpi) program = true
  /\ (getProgram program nMpi = program <-> nMpi <= 1)
  /\ (getProgram program nMpi = program ++ "_mpi" <-> 1 < nMpi).
Proof.
  assert (Hne : program ++ "_mpi" <> program).
  { intros H. apply (f_equal String.length) in H.
    rewrite length_append in H. cbn in H. lia. }
  unfold getProgram. destruct (Z.ltb_spec 1 nMpi) as [Hn|Hn].
  - split; [apply startswith_spec; now exists "_mpi"|].
    split; split; intros H; try lia; try reflexivity. now apply Hne in H.
  - split; [apply startswith_spec; exists ""; now rewrite append_nil_r|].
    split; split; intros H; try lia; try reflexivity.
    symmetry in H. now apply Hne in H.
Qed.

(** X2. [manageDims] returns something else than [z] only for a file named
    [.mrc] or [.map] with [z = 1] and [n <> 1], and then it returns [n]. *)
Theorem manageDims_changes_z (fileName : string) (z n : Z) :
  (manageDims fileName z n <> z
   <-> (EndsWith ".mrc" fileName \/ EndsWith ".map" fileName) /\ z = 1 /\ n <> 1)
  /\ (manageDims fileName z n = z \/ manageDims fileName z n = n).
Proof.
  unfold manageDims. rewrite <- !endswith_spec, <- orb_true_iff.
  destruct (endswith fileName ".mrc" || endswith fileName ".map");
    destruct (Z.eqb_spec z 1); destruct (Z.eqb_spec n 1);
    cbn [andb negb]; intuition (subst; try lia; try discriminate).
Qed.

(** X3. For a [.mrc] or [.map] file [manageDims] gives depth 1 only when both
    [z] and [n] are 1; and applying it again to its own result changes
    nothing. *)
Theorem manageDims_single_slice (fileName : string) (z n : Z) :
  (EndsWith ".mrc" fileName \/ EndsWith ".map" fileName ->
   (manageDims fileName z n = 1 <-> z = 1 /\ n = 1))
  /\ manageDims fileName (manageDims fileName z n) n = manageDims fileName z n.
Proof.
  unfold manageDims. rewrite <- !endswith_spec, <- orb_true_iff.
  destruct (endswith fileName ".mrc" || endswith fileName ".map");
    destruct (Z.eqb_spec z 1); destruct (Z.eqb_spec n 1);
    cbn [andb negb];
    repeat match goal with
           | |- context [?a =? 1] => destruct (Z.eqb_spec a 1)
           end;
    cbn [andb negb]; intuition (subst; try lia; try discriminate).
Qed.

Lemma manageDims_single_slice_witness :
  manageDims "stack.mrc" 1 1 = 1 <-> 1 = 1 /\ 1 = 1.
Proof.
  apply (proj1 (manageDims_single_slice "stack.mrc" 1 1)).
  left. apply endswith_spec. reflexivity.
Defined.

Lemma prefix_nil (s : string) : prefix "" s = true.
Proof. now destruct s. Qed.

Lemma isabs_append (c : ascii) (s x : string) :
  isabs (String c s ++ x) = isabs (String c s).
Proof.
  unfold isabs, startswith. cbn [append prefix].
  destruct (ascii_dec "/" c); [now rewrite !prefix_nil | reflexivity].
Qed.

(** X4. [_getAbsPath] gives an absolute path exactly when the file or the
    star file path is absolute: a relative file under a relative (or
    empty) star path stays relative. *)
Theorem getAbsPath_isabs (starFilePath tomoFile : string) :
  isabs (_getAbsPath starFilePath tomoFile)
  = (isabs tomoFile || isabs starFilePath)%bool.
Proof.
  unfold _getAbsPath, join.
  destruct (isabs tomoFile) eqn:Ht; [now rewrite Ht|].
  unfold isabs in Ht. rewrite Ht. cbn [orb].
  destruct starFilePath as [|c s].
  - cbn. exact Ht.
  - destruct (String.eqb (String c s) "" || endswith (String c s) "/");
      apply isabs_append.
Qed.

(** X5. [_getAbsPath] keeps an absolute file as it is; otherwise it puts the
    star file path in front, with one [/] between unless the path is
    empty or already ends in [/]. The result always ends with the file. *)
Theorem getAbsPath_shape (starFilePath tomoFile : string) :
  (isabs tomoFile = true -> _getAbsPath starFilePath tomoFile = tomoFile)
  /\ (isabs tomoFile = false ->
      _getAbsPath starFilePath tomoFile
      = if (String.eqb starFilePath "" || endswith starFilePath "/")%bool
        then starFilePath ++ tomoFile
        else starFilePath ++ "/" ++ tomoFile)
  /\ EndsWith tomoFile (_getAbsPath starFilePath tomoFile).
Proof.
  unfold _getAbsPath, join. destruct (isabs tomoFile) eqn:Ht.
  - repeat split; try discriminate. now exists "".
  - unfold isabs in Ht. rewrite Ht. split; [discriminate|]. split; [reflexivity|].
    destruct (String.eqb starFilePath "" || endswith starFilePath "/").
    + now exists starFilePath.
    + exists (starFilePath ++ "/"). now rewrite append_assoc.
Qed.

Lemma getAbsPath_shape_witness :
  _getAbsPath "/data/import" "/mnt/tomos/ts1.mrc" = "/mnt/tomos/ts1.mrc"
  /\ _getAbsPath "/data/import" "tomos/ts1.mrc"
     = if (String.eqb "/data/import" "" || endswith "/data/import" "/")%bool
       then "/data/import" ++ "tomos/ts1.mrc"
       else "/data/import" ++ "/" ++ "tomos/ts1.mrc".
Proof.
  split.
  - apply (proj1 (getAbsPath_shape "/data/import" "/mnt/tomos/ts1.mrc")).
    reflexivity.
  - apply (proj1 (proj2 (getAbsPath_shape "/data/import" "tomos/ts1.mrc"))).
    reflexivity.
Defined.

(** X6. Resolving twice is resolving once as soon as the star file path or
    the file is absolute. *)
Theorem getAbsPath_idempotent (starFilePath tomoFile : string) :
  (isabs starFilePath || isabs tomoFile)%bool = true ->
  _getAbsPath starFilePath (_getAbsPath starFilePath tomoFile)
  = _getAbsPath starFilePath tomoFile.
Proof.
  intros H.
  assert (Habs : isabs (_getAbsPath starFilePath tomoFile) = true)
    by (rewrite getAbsPath_isabs, orb_comm; exact H).
  unfold _getAbsPath at 1. now rewrite Habs.
Qed.

Lemma getAbsPath_idempotent_witness :
  _getAbsPath "/data/import" (_getAbsPath "/data/import" "tomos/ts1.mrc")
  = _getAbsPath "/data/import" "tomos/ts1.mrc".
Proof. apply getAbsPath_idempotent. reflexivity. Defined.

(** X7. [_gen2LevelBaseName] never fails on [parts[-2]], and the name it
    returns holds no [/]. *)
Theorem gen2LevelBaseName_flat (fullFileName : string) :
  exists name,
    _gen2LevelBaseName fullFileName = Some name
    /\ has_char "/" name = false.
Proof.
  unfold _gen2LevelBaseName.
  pose proof (split_pieces "/" fullFileName) as Hp.
  pose proof (split_not_nil "/" fullFileName) as Hn.
  rewrite Forall_forall in Hp.
  destruct (Nat.eqb_spec (List.length (split "/" fullFileName)) 1) as [H1|H1].
  - exists fullFileName. split; [reflexivity | now apply split_one in H1].
  - unfold from_end. cbn [Nat.sub].
    rewrite <- length_rev in H1.
    assert (Hin : forall p, In p (rev (split "/" fullFileName)) ->
                            has_char "/" p = false)
      by (intros p Hi; apply Hp; now apply in_rev).
    destruct (rev (split "/" fullFileName)) as [|x [|y r]] eqn:Hr.
    + apply (f_equal (@rev string)) in Hr. rewrite rev_involutive in Hr.
      contradiction.
    + now elim H1.
    + exists (y ++ "_" ++ x). split; [reflexivity|].
      rewrite !has_char_append, (Hin x), (Hin y); cbn; auto.
Qed.

(** The two-component and the longer case, for components without [/]. *)
Lemma gen2LevelBaseName_paths (parent base : string) :
  has_char "/" parent = false -> has_char "/" base = false ->
  _gen2LevelBaseName (parent ++ "/" ++ base) = Some (parent ++ "_" ++ base)
  /\ forall dir,
       _gen2LevelBaseName (dir ++ "/" ++ parent ++ "/" ++ base)
       = Some (parent ++ "_" ++ base).
Proof.
  intros Hp Hb. unfold _gen2LevelBaseName. split.
  - change (parent ++ "/" ++ base) with (parent ++ String "/" base).
    rewrite (split_snoc "/" parent base Hb), (split_whole "/" parent Hp).
    reflexivity.
  - intros dir.
    replace (dir ++ "/" ++ parent ++ "/" ++ base)
      with ((dir ++ String "/" parent) ++ String "/" base)
      by (now rewrite append_assoc).
    rewrite (split_snoc "/" _ base Hb), (split_snoc "/" dir parent Hp).
    rewrite from_end_snoc_2, from_end_snoc_1.
    rewrite !length_app. cbn [List.length].
    destruct (Nat.eqb_spec (List.length (split "/" dir) + 1 + 1) 1); [lia|].
    reflexivity.
Qed.

(** X8. The name depends on the last two components only: a name without
    [/] is returned as it is; otherwise the parent folder and the file
    name are joined by [_], whatever comes before. *)
Theorem gen2LevelBaseName_last_two (dir parent base : string) :
  has_char "/" parent = false -> has_char "/" base = false ->
  _gen2LevelBaseName base = Some base
  /\ _gen2LevelBaseName (parent ++ "/" ++ base) = Some (parent ++ "_" ++ base)
  /\ _gen2LevelBaseName (dir ++ "/" ++ parent ++ "/" ++ base)
     = Some (parent ++ "_" ++ base).
Proof.
  intros Hp Hb.
  destruct (gen2LevelBaseName_paths parent base Hp Hb) as [H2 H3].
  split; [|split; [exact H2 | apply H3]].
  unfold _gen2LevelBaseName. now rewrite (split_whole "/" base Hb).
Qed.

Lemma gen2LevelBaseName_last_two_witness :
  _gen2LevelBaseName "ts1.mrc" = Some "ts1.mrc"
  /\ _gen2LevelBaseName ("tomo01" ++ "/" ++ "ts1.mrc") = Some ("tomo01" ++ "_" ++ "ts1.mrc")
  /\ _gen2LevelBaseName ("/data/import" ++ "/" ++ "tomo01" ++ "/" ++ "ts1.mrc")
     = Some ("tomo01" ++ "_" ++ "ts1.mrc").
Proof.
  apply (gen2LevelBaseName_last_two "/data/import" "tomo01" "ts1.mrc"); reflexivity.
Defined.

(** X9. Two different files can get the same name: an underscore in the
    folder name or in the file name cannot be told from the one
    [_gen2LevelBaseName] puts between them. *)
Theorem gen2LevelBaseName_collides (a b c : string) :
  has_char "/" a = false -> has_char "/" b = false -> has_char "/" c = false ->
  (a ++ "_" ++ b) ++ "/" ++ c <> a ++ "/" ++ (b ++ "_" ++ c)
  /\ _gen2LevelBaseName ((a ++ "_" ++ b) ++ "/" ++ c)
     = _gen2LevelBaseName (a ++ "/" ++ (b ++ "_" ++ c)).
Proof.
  intros Ha Hb Hc. split.
  - rewrite append_assoc. intros H. apply append_inj_l in H. discriminate H.
  - assert (Hab : has_char "/" (a ++ "_" ++ b) = false)
      by (rewrite !has_char_append, Ha, Hb; reflexivity).
    assert (Hbc : has_char "/" (b ++ "_" ++ c) = false)
      by (rewrite !has_char_append, Hb, Hc; reflexivity).
    destruct (gen2LevelBaseName_paths (a ++ "_" ++ b) c Hab Hc) as [-> _].
    destruct (gen2LevelBaseName_paths a (b ++ "_" ++ c) Ha Hbc) as [-> _].
    now rewrite !append_assoc.
Qed.

Lemma gen2LevelBaseName_collides_witness :
  ("run" ++ "_" ++ "a") ++ "/" ++ "t.mrc" <> "run" ++ "/" ++ ("a" ++ "_" ++ "t.mrc")
  /\ _gen2LevelBaseName (("run" ++ "_" ++ "a") ++ "/" ++ "t.mrc")
     = _gen2LevelBaseName ("run" ++ "/" ++ ("a" ++ "_" ++ "t.mrc")).
Proof. apply gen2LevelBaseName_collides; reflexivity. Defined.

End UtilsFacts.

(* ================================================================== *)
(** ** [_cleanUndesiredFiles]: the names it builds, and what a call does *)

Module CleanFacts.
Import Py PyFacts PyPath PyPathFacts DeNovo DeNovoTables.

Lemma all_in_excludes (allowed s : string) (c : ascii) :
  all_in allowed s = true -> has_char c allowed = false -> has_char c s = false.
Proof.
  intros Hs Hc. induction s as [|d s IH]; [reflexivity|].
  cbn in *. apply andb_true_iff in Hs as [Hd Hs].
  destruct (Ascii.eqb_spec c d) as [->|_]; [congruence | now apply IH].
Qed.

Lemma all_in_zeros (n : nat) : all_in "-0123456789" (zeros n) = true.
Proof. induction n; cbn; auto. Qed.

Lemma fmt_03d_chars (z : Z) : all_in "-0123456789" (fmt_03d z) = true.
Proof.
  unfold fmt_03d. cbv zeta. rewrite !all_in_append, all_in_zeros.
  assert (Hd : all_in "-0123456789"
                 (NilZero.string_of_uint (N.to_uint (Z.abs_N z))) = true).
  { unfold NilZero.string_of_uint.
    destruct (N.to_uint (Z.abs_N z)); try reflexivity;
      apply digits_string_of_uint. }
  rewrite Hd. now destruct (z <? 0).
Qed.

Lemma uint_of_zeros (n : nat) (s : string) :
  NilEmpty.uint_of_string (zeros n ++ s)
  = option_map (Nat.iter n Decimal.D0) (NilEmpty.uint_of_string s).
Proof.
  induction n as [|n IH]; cbn [zeros append Nat.iter].
  - now destruct (NilEmpty.uint_of_string s).
  - cbn [NilEmpty.uint_of_string]. rewrite IH.
    now destruct (NilEmpty.uint_of_string s).
Qed.

Lemma of_uint_zeros (n : nat) (d : Decimal.uint) :
  N.of_uint (Nat.iter n Decimal.D0 d) = N.of_uint d.
Proof. induction n as [|n IH]; [reflexivity | exact IH]. Qed.

(** The number is read back from ['{:03d}'], whatever the padding. *)
Lemma int_of_fmt_03d (z : Z) :
  0 <= z -> int_of_digits (fmt_03d z) = Some (Z.to_N z).
Proof.
  intros Hz. unfold fmt_03d, int_of_digits. cbv zeta.
  replace (z <? 0) with false by (symmetry; apply Z.ltb_ge; exact Hz).
  cbn [append]. rewrite uint_of_zeros.
  replace (Z.abs_N z) with (Z.to_N z) by (destruct z; try reflexivity; lia).
  assert (Hu : exists d, NilEmpty.uint_of_string
                           (NilZero.string_of_uint (N.to_uint (Z.to_N z))) = Some d
                         /\ N.of_uint d = Z.to_N z).
  { pose proof (DecimalN.Unsigned.of_to (Z.to_N z)) as Hot.
    unfold NilZero.string_of_uint.
    destruct (N.to_uint (Z.to_N z)) eqn:E;
      [exists (Decimal.D0 Decimal.Nil); split; [reflexivity | exact Hot] | ..];
      eexists; (split; [apply NilEmpty.usu | exact Hot]). }
  destruct Hu as [d [-> Hd]]. cbn [option_map].
  now rewrite of_uint_zeros, Hd.
Qed.

Lemma fmt_03d_inj (a b : Z) : 0 <= a -> 0 <= b -> fmt_03d a = fmt_03d b -> a = b.
Proof.
  intros Ha Hb H. apply (f_equal int_of_digits) in H.
  rewrite !int_of_fmt_03d in H by assumption. injection H as H. lia.
Qed.

(** Two strings cut at their first underscore. *)
Lemma cut_at_underscore (d1 d2 r1 r2 : string) :
  has_char "_" d1 = false -> has_char "_" d2 = false ->
  d1 ++ "_" ++ r1 = d2 ++ "_" ++ r2 -> d1 = d2 /\ r1 = r2.
Proof.
  revert d2. induction d1 as [|c d1 IH]; intros [|c2 d2] H1 H2 H; cbn in *.
  - injection H as H. now split.
  - injection H as Hc _. subst c2. discriminate H2.
  - injection H as Hc _. subst c. discriminate H1.
  - injection H as -> H.
    apply orb_false_iff in H1 as [_ H1]. apply orb_false_iff in H2 as [_ H2].
    destruct (IH d2 H1 H2 H) as [-> ->]. now split.
Qed.

(** The names of two iterations are the same only for the same iteration
    and the same rest of the name. *)
Lemma iteration_name_inj (i j : Z) (r1 r2 : string) :
  0 <= i -> 0 <= j ->
  "relion_it" ++ fmt_03d i ++ "_" ++ r1 = "relion_it" ++ fmt_03d j ++ "_" ++ r2 ->
  i = j /\ r1 = r2.
Proof.
  intros Hi Hj H. apply (append_inj_l "relion_it") in H.
  apply cut_at_underscore in H as [H ->];
    try (apply (all_in_excludes "-0123456789"); [apply fmt_03d_chars | reflexivity]).
  split; [now apply fmt_03d_inj | reflexivity].
Qed.

Lemma append_inj_r (a b x : string) : a ++ x = b ++ x -> a = b.
Proof.
  revert b. induction a as [|c a IH]; intros [|d b] H; cbn in H.
  - reflexivity.
  - apply (f_equal String.length) in H. cbn in H. rewrite length_append in H. lia.
  - apply (f_equal String.length) in H. cbn in H. rewrite length_append in H. lia.
  - injection H as -> H. f_equal. now apply IH.
Qed.

(** X10. The names built for the calculation files tell the iteration and the
    file: no two of them are the same, from iteration 0 on. *)
Theorem star_name_inj (i j : Z) (c1 c2 : string) :
  0 <= i -> 0 <= j ->
  star_name i c1 = star_name j c2 -> i = j /\ c1 = c2.
Proof.
  intros Hi Hj H. unfold star_name in H.
  apply iteration_name_inj in H as [-> H]; try assumption.
  split; [reflexivity | now apply append_inj_r in H].
Qed.

Lemma star_name_inj_witness : 3 = 3 /\ "model" = "model".
Proof. apply (star_name_inj 3 3 "model" "model"); [lia | lia | reflexivity]. Defined.

(** X11. As the class stands, [_cleanUndesiredFiles] stops at its first
    line of work: [self._lastIter] is not an attribute of the class, the
    lookup raises [AttributeError] before any file is looked for, and
    the files are left as they were. Run as a step it would remove
    nothing, start no program and leave that exception behind. *)
Theorem clean_raises_before_removing (star_file : string)
    (abspath : string -> string)
    (relion : RunRelionTomo -> PyIO.FileSystem -> PyIO.FileSystem)
    (self : ProtRelionDeNovoInitialModel) (w : World) :
  _cleanUndesiredFiles abspath self (files w)
    = (PyIO.Raised (PyIO.AttributeError "_lastIter"), files w)
  /\ files (runStep star_file abspath relion self w Step_cleanUndesiredFiles)
       = files w
  /\ runs (runStep star_file abspath relion self w Step_cleanUndesiredFiles)
       = runs w
  /\ raised (runStep star_file abspath relion self w Step_cleanUndesiredFiles)
       = (raised w ++ [PyIO.AttributeError "_lastIter"])%list.
Proof.
  assert (H : _cleanUndesiredFiles abspath self (files w)
              = (PyIO.Raised (PyIO.AttributeError "_lastIter"), files w)).
  { unfold _cleanUndesiredFiles, _lastIter, PyIO.bind, PyIO.raise. reflexivity. }
  split; [exact H|].
  unfold runStep. rewrite H. cbn. repeat split.
Qed.

End CleanFacts.

(* ================================================================== *)
(** ** More on the de novo command *)

Module DeNovoMore.
Import Py PyFacts DeNovo DeNovoTables DeNovoFacts.

(** X15. Every boolean parameter that has a flag of its own: the flag is among
    the words [_genCommand] writes exactly when the parameter is true. *)
Theorem toggle_flag_iff (star_file : string) (self : ProtRelionDeNovoInitialModel)
    (p : BooleanParam) (name : string) :
  flag_name p = Some name ->
  (In (WLit name) (words star_file self) <-> getB self p = true).
Proof.
  intros Hn. destruct p; cbn [flag_name] in Hn; try discriminate Hn;
    injection Hn as <-; (split; intros H;
      [ apply (words_origin star_file self) in H; guard_of H; exact H
      | unfold words; apply in_or_app; left; unfold generated; rewrite H;
        find_word ]).
Qed.

Lemma toggle_flag_iff_witness :
  In (WLit "--flatten_solvent")
     (words "particles.star" (setB flattenSolvent true (default_form 200)))
  <-> getB (setB flattenSolvent true (default_form 200)) flattenSolvent = true.
Proof.
  apply (toggle_flag_iff "particles.star" _ flattenSolvent). reflexivity.
Defined.

(** X16. The two options guarded by their own value: [--zero_mask] is written
    exactly when [zeroMask] is not zero, and [--scratch_dir <dir>] exactly
    when [scratchDir] is a string that is not empty ([None] and [''] write
    nothing); the directory follows the flag as it was given. *)
Theorem value_guarded_options (star_file : string) (self : ProtRelionDeNovoInitialModel) :
  (In (WLit "--zero_mask") (words star_file self) <-> getI self zeroMask <> 0)
  /\ (In (WLit "--scratch_dir") (words star_file self)
      <-> exists c dir, getS self scratchDir = Some (String c dir))
  /\ (forall c dir, getS self scratchDir = Some (String c dir) ->
      Contains ("--scratch_dir " ++ String c dir ++ " ") (_genCommand star_file self)).
Proof.
  split; [split|split; [split|]].
  - intros H. apply (words_origin star_file self) in H. guard_of H.
    now apply truthy_i_nonzero.
  - intros H. unfold words. apply in_or_app; left. unfold generated.
    rewrite (truthy_i_true _ H). find_word.
  - intros H. apply (words_origin star_file self) in H. guard_of H.
    destruct (getS self scratchDir) as [[|c dir]|]; try discriminate H.
    now exists c, dir.
  - intros [c [dir H]]. unfold words. apply in_or_app; left. unfold generated.
    rewrite H. cbn [truthy_s]. find_word.
  - intros c dir H. rewrite genCommand_spaced. apply Contains_app_l.
    unfold generated. rewrite H. cbn [truthy_s fmt_s].
    change ("--scratch_dir " ++ String c dir ++ " ")
      with (spaced (optS true "--scratch_dir" (String c dir))).
    find_words.
Qed.

Lemma value_guarded_options_witness :
  Contains ("--scratch_dir " ++ String "/" "scratch" ++ " ")
    (_genCommand "particles.star"
       (setS scratchDir (Some "/scratch") (default_form 200))).
Proof.
  apply (proj2 (proj2 (value_guarded_options "particles.star"
                         (setS scratchDir (Some "/scratch") (default_form 200))))).
  reflexivity.
Defined.

Lemma Subseq_nil_l {A : Type} (l : list A) : Subseq [] l.
Proof. induction l; now constructor. Qed.

Lemma Subseq_skip_app {A : Type} (g a b : list A) :
  Subseq a b -> Subseq a (g ++ b).
Proof. intros H. induction g; cbn; [exact H | now constructor]. Qed.

(** X17. The mandatory words are always written, in the same order, whatever
    the toggles and the optional values: the command is the mandatory
    words with conditional ones put in between. *)
Theorem mandatory_words_in_order (star_file : string) (self : ProtRelionDeNovoInitialModel) :
  Subseq (mandatory_words star_file self) (words star_file self).
Proof.
  unfold mandatory_words, words, generated.
  rewrite <- !app_assoc. cbn [app].
  repeat first [ apply Subseq_keep
               | apply Subseq_nil_l
               | apply Subseq_skip_app ].
Qed.

(** X18. The command starts with the input star file, the output directory,
    the operation flag and the number of threads, in that order. *)
Theorem command_header (star_file : string) (self : ProtRelionDeNovoInitialModel) :
  exists rest,
    _genCommand star_file self
    = "--i " ++ _getExtraPath (inputPseudoSubtomosProt self) [star_file]
        ++ " --o " ++ _getExtraPath (host self) []
        ++ " --denovo_3dref --j " ++ fmt_i (getI self numberOfThreads) ++ " "
        ++ rest.
Proof.
  rewrite genCommand_spaced. unfold generated.
  rewrite spaced_app. cbn [spaced text]. eexists.
  rewrite !append_assoc. cbn [append]. reflexivity.
Qed.

(** X19. The number of MPI processes is never part of the argument string;
    and with gradient based optimisation on, the whole call is the same
    whatever that number is. *)
Theorem mpi_count_not_in_arguments (star_file : string)
    (self : ProtRelionDeNovoInitialModel) (n : Z) :
  _genCommand star_file (setI numberOfMpi n self) = _genCommand star_file self
  /\ (getB self gradBasedOpt = true ->
      _generateDeNovo3DModel star_file (setI numberOfMpi n self)
      = _generateDeNovo3DModel star_file self).
Proof.
  assert (H : _genCommand star_file (setI numberOfMpi n self)
              = _genCommand star_file self)
    by (rewrite !genCommand_spaced; reflexivity).
  split; [exact H|]. intros Hg.
  unfold _generateDeNovo3DModel. rewrite H.
  cbn [getB setI]. now rewrite Hg.
Qed.

Lemma mpi_count_not_in_arguments_witness :
  _genCommand "particles.star" (setI numberOfMpi 8 grad_with_mpi)
  = _genCommand "particles.star" grad_with_mpi
  /\ _generateDeNovo3DModel "particles.star" (setI numberOfMpi 8 grad_with_mpi)
     = _generateDeNovo3DModel "particles.star" grad_with_mpi.
Proof.
  split.
  - apply (proj1 (mpi_count_not_in_arguments "particles.star" grad_with_mpi 8)).
  - apply (proj2 (mpi_count_not_in_arguments "particles.star" grad_with_mpi 8)).
    reflexivity.
Defined.

End DeNovoMore.

(* ================================================================== *)
(** ** More on the reconstruction command *)

Module RecTomoMore.
Import Py PyFacts RecTomo RecTomoFacts.

Lemma fmt_1f_abs_tiny (q : Q) :
  (Qabs q < 1 # 20)%Q -> fmt_1f_abs q = "0.0".
Proof.
  destruct q as [n d]. unfold Qlt. cbn [Qabs Qnum Qden]. intros H.
  unfold fmt_1f_abs. rewrite round_tenfold. cbv zeta.
  assert (Hs : 0 <= Z.abs n * 10 < Z.pos d) by lia.
  rewrite (Z.mod_small _ _ Hs), (Z.div_small _ _ Hs).
  replace (2 * (Z.abs n * 10) <? Z.pos d) with true
    by (symmetry; apply Z.ltb_lt; lia).
  reflexivity.
Qed.

(** X20. The binning factor is not checked: a zero, or a factor smaller
    than 0.05 in absolute value, is written as [--bin 0.0], and as
    [--bin -0.0] when its sign bit is set (so also for [-0.0]). *)
Theorem tiny_bin_written_as_zero (self : ProtRelionTomoReconstruct) (s : bool) :
  (Prim2SF (binFactor self) = S754_zero s
   \/ exists m e, Prim2SF (binFactor self) = S754_finite s m e
                  /\ (Qabs (SF_magnitude m e) < 1 # 20)%Q) ->
  Contains ("--bin " ++ fmt_sign s ++ "0.0 ") (_genTomoRecCommand self).
Proof.
  intros H. destruct (bin_option_layout self) as [pre [post [_ ->]]].
  assert (Hf : fmt_1f (binFactor self) = fmt_sign s ++ "0.0").
  { unfold fmt_1f. destruct H as [->|[m [e [-> H]]]]; [reflexivity|].
    now rewrite (fmt_1f_abs_tiny _ H). }
  rewrite Hf. exists pre, post.
  now rewrite !append_assoc.
Qed.

Lemma tiny_bin_written_as_zero_witness :
  Contains "--bin 0.0 " (_genTomoRecCommand (reconstruct_form 0.03125))
  /\ Contains "--bin -0.0 " (_genTomoRecCommand (reconstruct_form neg_zero)).
Proof.
  split.
  - apply (tiny_bin_written_as_zero (reconstruct_form 0.03125) false).
    right. exists 4503599627370496%positive, (-57). split; reflexivity.
  - apply (tiny_bin_written_as_zero (reconstruct_form neg_zero) true).
    left. reflexivity.
Defined.

End RecTomoMore.
